(** * fx-bot: the multi-timeframe signal confirmation pipeline

    A shallow embedding of the decision core of the trading bot
    (candle_patterns.py, pattern_detector.py, support_resistance.py,
    supply_demand.py, reversal_signal.py and the scoring part of main.py),
    followed by the properties of it that the specification states.

    Conventions of the embedding.
    - A pandas DataFrame of bars is a [list Bar], oldest bar first, with the
      default positional index 0..n-1.
    - Prices are Python floats in the source.  Here they are rationals [Q]:
      comparisons, [min], [max] and [abs] are exact on floats, and the few
      sums and products are taken exactly.  No NaN is represented:
      [fetch_candles] refuses a frame holding one.  Where rounding could
      matter (the sum of the score weights) the sum is also taken in
      binary64 arithmetic.
    - A Python function that can raise returns a [result]. *)

From Stdlib Require Import Floats.
From Stdlib Require Import String List ZArith QArith Qabs Bool Lia Lqa.
Import ListNotations.

Open Scope Q_scope.

(** ** Python values and exceptions *)

Inductive exn : Type :=
| IndexError
| KeyError.

Inductive result (A : Type) : Type :=
| Ok (a : A)
| Raise (e : exn).

Arguments Ok {A} a.
Arguments Raise {A} e.

Definition bind {A B : Type} (r : result A) (k : A -> result B) : result B :=
  match r with
  | Ok a => k a
  | Raise e => Raise e
  end.

Notation "x <- r ;; k" := (bind r (fun x => k))
  (at level 61, r at next level, right associativity).

(** Float comparisons as booleans. *)
Definition Qltb (x y : Q) : bool := negb (Qle_bool y x).
Definition Qgtb (x y : Q) : bool := Qltb y x.
Definition Qleb (x y : Q) : bool := Qle_bool x y.
Definition Qgeb (x y : Q) : bool := Qle_bool y x.

(** Python's [min(a, b)] and [max(a, b)]: the first argument wins a tie. *)
Definition py_min (a b : Q) : Q := if Qltb b a then b else a.
Definition py_max (a b : Q) : Q := if Qgtb b a then b else a.

(** ** Bars and frames *)

Record Bar : Type := mkBar {
  open : Q;
  high : Q;
  low : Q;
  close : Q
}.

Definition DataFrame : Type := list Bar.

(** [df.iloc[i]]: positional access, a negative position counts from the
    end, a position outside the frame raises IndexError. *)
Definition iloc (df : DataFrame) (i : Z) : result Bar :=
  let n := Z.of_nat (length df) in
  let j := (if i <? 0 then n + i else i)%Z in
  if ((0 <=? j) && (j <? n))%Z then
    match nth_error df (Z.to_nat j) with
    | Some b => Ok b
    | None => Raise IndexError
    end
  else Raise IndexError.

(** [df.tail(k)] for a count [k]: the last [k] rows, all of them when the
    frame is shorter. *)
Definition tail (k : nat) (df : DataFrame) : DataFrame :=
  skipn (length df - k) df.

(** * candle_patterns.py *)

Module candle_patterns.

Definition is_bullish_engulfing (df : DataFrame) : result bool :=
  if (length df <? 2)%nat then Ok false else
  prev <- iloc df (-2) ;;
  curr <- iloc df (-1) ;;
  Ok (Qltb (close prev) (open prev) &&
      Qgtb (close curr) (open curr) &&
      Qltb (open curr) (close prev) &&
      Qgtb (close curr) (open prev)).

Definition is_bearish_engulfing (df : DataFrame) : result bool :=
  if (length df <? 2)%nat then Ok false else
  prev <- iloc df (-2) ;;
  curr <- iloc df (-1) ;;
  Ok (Qgtb (close prev) (open prev) &&
      Qltb (close curr) (open curr) &&
      Qgtb (open curr) (close prev) &&
      Qltb (close curr) (open prev)).

Definition is_hammer (df : DataFrame) : result bool :=
  if (length df <? 1)%nat then Ok false else
  c <- iloc df (-1) ;;
  let body := Qabs (close c - open c) in
  let lower_wick := py_min (close c) (open c) - low c in
  Ok (Qgtb lower_wick (2 * body)).

Definition is_shooting_star (df : DataFrame) : result bool :=
  if (length df <? 1)%nat then Ok false else
  c <- iloc df (-1) ;;
  let body := Qabs (close c - open c) in
  let upper_wick := high c - py_max (close c) (open c) in
  Ok (Qgtb upper_wick (2 * body)).

Definition is_doji (df : DataFrame) : result bool :=
  if (length df <? 1)%nat then Ok false else
  c <- iloc df (-1) ;;
  Ok (Qltb (Qabs (close c - open c)) (0.1 * (high c - low c))).

Definition is_morning_star (df : DataFrame) : result bool :=
  if (length df <? 3)%nat then Ok false else
  a <- iloc df (-3) ;;
  b <- iloc df (-2) ;;
  c <- iloc df (-1) ;;
  Ok (Qltb (close a) (open a) &&
      Qltb (Qabs (close b - open b)) (0.2 * (high b - low b)) &&
      Qgtb (close c) (open c) &&
      Qgtb (close c) ((open a + close a) / 2)).

Definition is_evening_star (df : DataFrame) : result bool :=
  if (length df <? 3)%nat then Ok false else
  a <- iloc df (-3) ;;
  b <- iloc df (-2) ;;
  c <- iloc df (-1) ;;
  Ok (Qgtb (close a) (open a) &&
      Qltb (Qabs (close b - open b)) (0.2 * (high b - low b)) &&
      Qltb (close c) (open c) &&
      Qltb (close c) ((open a + close a) / 2)).

Definition is_gravestone_doji (df : DataFrame) : result bool :=
  if (length df <? 1)%nat then Ok false else
  c <- iloc df (-1) ;;
  let body := Qabs (open c - close c) in
  Ok (Qltb body (0.1 * (high c - low c)) &&
      Qgtb (high c - py_max (open c) (close c)) (2 * body)).

Definition is_dragonfly_doji (df : DataFrame) : result bool :=
  if (length df <? 1)%nat then Ok false else
  c <- iloc df (-1) ;;
  let body := Qabs (open c - close c) in
  Ok (Qltb body (0.1 * (high c - low c)) &&
      Qgtb (py_min (open c) (close c) - low c) (2 * body)).

Definition is_tweezer_top (df : DataFrame) : result bool :=
  if (length df <? 2)%nat then Ok false else
  a <- iloc df (-2) ;;
  b <- iloc df (-1) ;;
  Ok (Qltb (Qabs (high a - high b)) 0.00001 &&
      Qgtb (close a) (open a) &&
      Qltb (close b) (open b)).

Definition is_tweezer_bottom (df : DataFrame) : result bool :=
  if (length df <? 2)%nat then Ok false else
  a <- iloc df (-2) ;;
  b <- iloc df (-1) ;;
  Ok (Qltb (Qabs (low a - low b)) 0.00001 &&
      Qltb (close a) (open a) &&
      Qgtb (close b) (open b)).

Definition is_bullish_harami (df : DataFrame) : result bool :=
  if (length df <? 2)%nat then Ok false else
  a <- iloc df (-2) ;;
  b <- iloc df (-1) ;;
  Ok (Qltb (close a) (open a) &&
      Qgtb (close b) (open b) &&
      Qgtb (open b) (close a) &&
      Qltb (close b) (open a)).

Definition is_bearish_harami (df : DataFrame) : result bool :=
  if (length df <? 2)%nat then Ok false else
  a <- iloc df (-2) ;;
  b <- iloc df (-1) ;;
  Ok (Qgtb (close a) (open a) &&
      Qltb (close b) (open b) &&
      Qltb (open b) (close a) &&
      Qgtb (close b) (open a)).

(** The centralized pattern lists. *)
Definition CandlePredicate : Type := DataFrame -> result bool.

Definition BUY_PATTERNS : list CandlePredicate :=
  [ is_bullish_engulfing; is_hammer; is_dragonfly_doji;
    is_tweezer_bottom; is_bullish_harami; is_morning_star ].

Definition SELL_PATTERNS : list CandlePredicate :=
  [ is_bearish_engulfing; is_shooting_star; is_gravestone_doji;
    is_tweezer_top; is_bearish_harami; is_evening_star ].

Definition NEUTRAL_PATTERNS : list CandlePredicate := [ is_doji ].

Definition ALL_PATTERNS : list CandlePredicate :=
  BUY_PATTERNS ++ SELL_PATTERNS ++ NEUTRAL_PATTERNS.

(** The thirteen predicates by name, with the number of bars each one reads
    (one for the single-candle patterns, two for the pairs, three for the
    stars). *)
Inductive Pattern : Type :=
| BullishEngulfing | BearishEngulfing | Hammer | ShootingStar | Doji
| MorningStar | EveningStar | GravestoneDoji | DragonflyDoji
| TweezerTop | TweezerBottom | BullishHarami | BearishHarami.

Definition predicate (p : Pattern) : CandlePredicate :=
  match p with
  | BullishEngulfing => is_bullish_engulfing
  | BearishEngulfing => is_bearish_engulfing
  | Hammer => is_hammer
  | ShootingStar => is_shooting_star
  | Doji => is_doji
  | MorningStar => is_morning_star
  | EveningStar => is_evening_star
  | GravestoneDoji => is_gravestone_doji
  | DragonflyDoji => is_dragonfly_doji
  | TweezerTop => is_tweezer_top
  | TweezerBottom => is_tweezer_bottom
  | BullishHarami => is_bullish_harami
  | BearishHarami => is_bearish_harami
  end.

Definition min_bars (p : Pattern) : nat :=
  match p with
  | Hammer | ShootingStar | Doji | GravestoneDoji | DragonflyDoji => 1
  | BullishEngulfing | BearishEngulfing
  | TweezerTop | TweezerBottom | BullishHarami | BearishHarami => 2
  | MorningStar | EveningStar => 3
  end.

(** [any(p(df) for p in ps)]: stops at the first predicate that holds, and
    an exception of a predicate reached before that propagates. *)
Fixpoint any_pattern (ps : list CandlePredicate) (df : DataFrame) : result bool :=
  match ps with
  | [] => Ok false
  | p :: rest =>
      b <- p df ;;
      if b then Ok true else any_pattern rest df
  end.

End candle_patterns.

(** * pattern_detector.py *)

Module pattern_detector.

(** The twelve chart-pattern detectors.  Each is a pure predicate of the bar
    window, built on numpy means, scipy's [argrelextrema] and float
    division; their outcome on a window is taken as given ([holds] below),
    and what is modelled is the selection among them. *)
Inductive Detector : Type :=
| detect_double_bottom
| detect_double_top
| detect_head_and_shoulders
| detect_inverse_head_and_shoulders
| detect_ascending_triangle
| detect_descending_triangle
| detect_symmetric_triangle
| detect_wedge
| detect_flag
| detect_pennant
| detect_cup_and_handle
| detect_rectangle.

(** The dict [{"direction": ..., "pattern": ...}] that [detect_pattern]
    returns. *)
Record PatternMatch : Type := mkMatch {
  direction : option string;
  pattern : string
}.

Definition patterns : list (Detector * option string * string) :=
  [ (detect_double_bottom, Some "BUY", "Double Bottom");
    (detect_double_top, Some "SELL", "Double Top");
    (detect_head_and_shoulders, Some "SELL", "Head and Shoulders");
    (detect_inverse_head_and_shoulders, Some "BUY", "Inverse Head and Shoulders");
    (detect_ascending_triangle, Some "BUY", "Ascending Triangle");
    (detect_descending_triangle, Some "SELL", "Descending Triangle");
    (detect_symmetric_triangle, None, "Symmetric Triangle");
    (detect_wedge, None, "Wedge");
    (detect_flag, None, "Flag");
    (detect_pennant, None, "Pennant");
    (detect_cup_and_handle, Some "BUY", "Cup and Handle");
    (detect_rectangle, None, "Rectangle") ]%string.

(** Truth value of an [Optional[str]]: [None] and the empty string are
    false. *)
Definition truthy (s : option string) : bool :=
  match s with
  | Some s => negb (s =? "")%string
  | None => false
  end.

(** [a == b] on two [Optional[str]] values. *)
Definition opt_eqb (a b : option string) : bool :=
  match a, b with
  | Some x, Some y => (x =? y)%string
  | None, None => true
  | _, _ => false
  end.

Section Detect.

(** [holds func df] is the value of [func(df)]. *)
Variable holds : Detector -> DataFrame -> bool.

(** The [for func, direction, name in patterns] loop, [fallback] being the
    loop's variable of that name. *)
Fixpoint detect_pattern_loop (ps : list (Detector * option string * string))
    (df : DataFrame) (expected_direction : option string)
    (fallback : option PatternMatch) : option PatternMatch :=
  match ps with
  | [] => fallback
  | (func, direction, name) :: rest =>
      if holds func df then
        if truthy expected_direction && opt_eqb direction expected_direction
        then Some (mkMatch direction name)
        else
          detect_pattern_loop rest df expected_direction
            (match fallback with
             | None => Some (mkMatch direction name)
             | Some _ => fallback
             end)
      else detect_pattern_loop rest df expected_direction fallback
  end.

Definition detect_pattern (df : DataFrame) (expected_direction : option string)
  : option PatternMatch :=
  detect_pattern_loop patterns df expected_direction None.

End Detect.

End pattern_detector.

(** * support_resistance.py *)

Module support_resistance.

(** [xs[a:b]] for positions [0 <= a]: the elements at positions [a..b-1],
    cut at the end of the sequence. *)
Definition slice {A : Type} (xs : list A) (a b : nat) : list A :=
  firstn (b - a) (skipn a xs).

(** [sorted(xs)] and [sorted(xs, reverse=True)]: stable sorts. *)
Fixpoint insert_by (leb : Q -> Q -> bool) (x : Q) (l : list Q) : list Q :=
  match l with
  | [] => [x]
  | y :: t => if leb x y then x :: y :: t else y :: insert_by leb x t
  end.

Definition sorted (xs : list Q) : list Q := fold_right (insert_by Qleb) [] xs.
Definition sorted_reverse (xs : list Q) : list Q := fold_right (insert_by Qgeb) [] xs.

(** The two tests of the loop body at position [i]: the bar's high is above
    every high of the [window] bars before it and of the [window] bars after
    it; the same below for its low. *)
Definition is_swing_high (highs : list Q) (window i : nat) (h : Q) : bool :=
  forallb (fun x => Qgtb h x) (slice highs (i - window) i) &&
  forallb (fun x => Qgtb h x) (slice highs (i + 1) (i + 1 + window)).

Definition is_swing_low (lows : list Q) (window i : nat) (l : Q) : bool :=
  forallb (fun x => Qltb l x) (slice lows (i - window) i) &&
  forallb (fun x => Qltb l x) (slice lows (i + 1) (i + 1 + window)).

(** [series[i]] by label on the default index. *)
Definition at_label (xs : list Q) (i : nat) : result Q :=
  match nth_error xs i with
  | Some x => Ok x
  | None => Raise KeyError
  end.

(** The body of [for i in range(window, max_index)], on the pair
    [(supports, resistances)]. *)
Definition scan_bar (highs lows : list Q) (window : nat)
    (acc : list Q * list Q) (i : nat) : result (list Q * list Q) :=
  let '(supports, resistances) := acc in
  h <- at_label highs i ;;
  l <- at_label lows i ;;
  let resistances := if is_swing_high highs window i h
                     then resistances ++ [h] else resistances in
  let supports := if is_swing_low lows window i l
                  then supports ++ [l] else supports in
  Ok (supports, resistances).

Fixpoint scan_bars (highs lows : list Q) (window : nat)
    (acc : list Q * list Q) (range : list nat) : result (list Q * list Q) :=
  match range with
  | [] => Ok acc
  | i :: rest =>
      acc' <- scan_bar highs lows window acc i ;;
      scan_bars highs lows window acc' rest
  end.

(** [range(a, b)] *)
Definition range (a b : nat) : list nat := seq a (b - a).

Definition find_nearest_levels (df : DataFrame) (window lookback max_levels : nat)
  : result (list Q * list Q) :=
  let highs := map high df in
  let lows := map low df in
  last <- iloc df (-1) ;;
  let recent_close := close last in
  let max_index := Nat.min (Nat.max (length df - window) 0) lookback in
  acc <- scan_bars highs lows window ([], []) (range window max_index) ;;
  let '(supports, resistances) := acc in
  let support_levels :=
    firstn max_levels
      (sorted_reverse (filter (fun s => Qltb s recent_close) supports)) in
  let resistance_levels :=
    firstn max_levels
      (sorted (filter (fun r => Qgtb r recent_close) resistances)) in
  Ok (support_levels, resistance_levels).

Definition is_near_support_or_resistance (price : Q)
    (support_levels resistance_levels : list Q) (threshold : Q) : bool :=
  existsb (fun lvl => Qleb (Qabs (price - lvl)) threshold)
          (support_levels ++ resistance_levels).

End support_resistance.

(** * String helpers shared by the symbol classifiers *)

Module pystr.

Definition upper_ascii (c : Ascii.ascii) : Ascii.ascii :=
  let n := Ascii.nat_of_ascii c in
  if (97 <=? n)%nat && (n <=? 122)%nat then Ascii.ascii_of_nat (n - 32) else c.

(** [s.upper()] on ASCII symbols. *)
Fixpoint upper (s : string) : string :=
  match s with
  | EmptyString => EmptyString
  | String c rest => String (upper_ascii c) (upper rest)
  end.

Definition lower_ascii (c : Ascii.ascii) : Ascii.ascii :=
  let n := Ascii.nat_of_ascii c in
  if (65 <=? n)%nat && (n <=? 90)%nat then Ascii.ascii_of_nat (n + 32) else c.

(** [s.lower()] on ASCII names. *)
Fixpoint lower (s : string) : string :=
  match s with
  | EmptyString => EmptyString
  | String c rest => String (lower_ascii c) (lower rest)
  end.

(** [sub in s] *)
Definition contains (sub s : string) : bool :=
  match index 0 sub s with
  | Some _ => true
  | None => false
  end.

End pystr.

(** * reversal_signal.py *)

Module reversal_signal.

Import candle_patterns support_resistance.

Definition patterns : list CandlePredicate :=
  [ is_bullish_engulfing; is_bearish_engulfing; is_hammer; is_shooting_star;
    is_morning_star; is_evening_star; is_doji; is_gravestone_doji;
    is_dragonfly_doji; is_tweezer_top; is_tweezer_bottom;
    is_bullish_harami; is_bearish_harami ].

(** The keys of the [TIMEFRAMES] dict in its insertion order.  The values
    are the terminal's timeframe constants; a timeframe is identified by its
    label here. *)
Definition TIMEFRAMES : list string :=
  [ "M1"; "M5"; "M15"; "M30"; "H1"; "H2"; "H4"; "D1" ]%string.

Definition TF_CANDLE_COUNTS : list (string * nat) :=
  [ ("M1", 5000); ("M5", 5000); ("M15", 3000); ("M30", 1500);
    ("H1", 1500); ("H2", 1500); ("H4", 2000); ("D1", 2000) ]%string%nat.

Definition REQUIRED_TIMEFRAMES : list string :=
  [ "M1"; "M5"; "M15"; "M30"; "H1"; "H2"; "H4"; "D1" ]%string.

Fixpoint lookup (d : list (string * nat)) (k : string) : option nat :=
  match d with
  | [] => None
  | (k', v) :: rest => if (k' =? k)%string then Some v else lookup rest k
  end.

(** [d.get(k, default)] and [d[k]] *)
Definition dict_get (d : list (string * nat)) (k : string) (default : nat) : nat :=
  match lookup d k with
  | Some v => v
  | None => default
  end.

Definition dict_item (d : list (string * nat)) (k : string) : result nat :=
  match lookup d k with
  | Some v => Ok v
  | None => Raise KeyError
  end.

Definition _pip_size (symbol : string) : Q :=
  let s := pystr.upper symbol in
  if pystr.contains "XAU" s then 0.1
  else if pystr.contains "JPY" s then 0.01
  else 0.0001.

(** The injected [fetch_candles_fn(symbol, tf, count=count)]: [None] or a
    frame. *)
Definition Fetcher : Type := string -> string -> nat -> option DataFrame.

(** [np.sign] of a float, as an integer. *)
Definition sign (x : Q) : Z :=
  if Qltb 0 x then 1%Z else if Qltb x 0 then (-1)%Z else 0%Z.

Definition sum_Z (xs : list Z) : Z := fold_left Z.add xs 0%Z.
Definition sum_Q (xs : list Q) : Q := fold_left Qplus xs 0.

Definition mean (xs : list Q) : Q :=
  sum_Q xs / inject_Z (Z.of_nat (length xs)).

(** The square of pandas' [Series.std()] (one delta degree of freedom). *)
Definition variance (xs : list Q) : Q :=
  let m := mean xs in
  sum_Q (map (fun x => (x - m) * (x - m)) xs)
  / inject_Z (Z.of_nat (length xs) - 1).

(** [xs.std() < bound].  The deviation is a square root; it is non-negative,
    so it is below [bound] exactly when [bound] is positive and the variance
    is below the square of [bound].  On fewer than two values the deviation
    is undefined and the comparison is false. *)
Definition std_lt (xs : list Q) (bound : Q) : bool :=
  if (length xs <? 2)%nat then false
  else Qltb 0 bound && Qltb (variance xs) (bound * bound).

(** [max(xs)] and [min(xs)] of a non-empty list. *)
Definition list_max (xs : list Q) : Q :=
  match xs with
  | [] => 0
  | x :: t => fold_left py_max t x
  end.

Definition list_min (xs : list Q) : Q :=
  match xs with
  | [] => 0
  | x :: t => fold_left py_min t x
  end.

Definition nonempty {A : Type} (xs : list A) : bool :=
  match xs with
  | [] => false
  | _ :: _ => true
  end.

(** How one pass of the loop body over a timeframe ends. *)
Inductive Verdict : Type :=
| Insufficient   (* no frame, or fewer bars than required *)
| TooShort       (* the recent frame has fewer than five bars *)
| Choppy         (* weak directional bias and even body sizes *)
| NearLevel      (* price near a level that is not broken *)
| Confirmed
| Rejected.

(** The body of [for label, tf in TIMEFRAMES.items()]. *)
Definition check_timeframe (fetch_candles_fn : Fetcher)
    (symbol direction label : string) : result Verdict :=
  let pip := _pip_size symbol in
  let count := dict_get TF_CANDLE_COUNTS label 300 in
  match fetch_candles_fn symbol label count with
  | None => Ok Insufficient
  | Some df_full =>
      need <- dict_item TF_CANDLE_COUNTS label ;;
      if (length df_full <? need)%nat then Ok Insufficient else
      last <- iloc df_full (-1) ;;
      let current_price := close last in
      let df_recent := tail need df_full in
      if (length df_recent <? 5)%nat then Ok TooShort else
      let directions := map (fun b => sign (close b - open b)) df_recent in
      let body_sizes := map (fun b => Qabs (close b - open b)) df_recent in
      if (if (sum_Z directions <=? 2)%Z
          then std_lt body_sizes (mean body_sizes * 0.5) else false)
      then Ok Choppy else
      pattern_match <- any_pattern patterns df_recent ;;
      levels <- find_nearest_levels df_full 20 500 3 ;;
      let '(supports, resistances) := levels in
      let sr_threshold := 20 * pip in
      let near_zone :=
        is_near_support_or_resistance current_price supports resistances
                                      sr_threshold in
      let breakout_buffer := py_max (10 * pip) (0.001 * current_price) in
      let broke_level :=
        ((direction =? "BUY")%string && nonempty resistances &&
         Qgtb current_price (list_max resistances + breakout_buffer))
        ||
        ((direction =? "SELL")%string && nonempty supports &&
         Qltb current_price (list_min supports - breakout_buffer)) in
      if near_zone && negb broke_level then Ok NearLevel else
      c1 <- iloc df_full (-1) ;;
      c5 <- iloc df_full (-5) ;;
      c10 <- iloc df_full (-10) ;;
      let slope_recent := close c1 - close c5 in
      let slope_previous := close c5 - close c10 in
      let momentum_fading := Qltb (Qabs slope_recent) (Qabs slope_previous) in
      let opposite := if (direction =? "BUY")%string then (-1)%Z else 1%Z in
      let reversing_candles :=
        length (filter (fun d => (d =? opposite)%Z) directions) in
      if pattern_match || (momentum_fading && (2 <=? reversing_candles)%nat)
      then Ok Confirmed else Ok Rejected
  end.

(** The loop, [confirmed_timeframes] being the list it appends to. *)
Fixpoint confirm_loop (fetch_candles_fn : Fetcher) (symbol direction : string)
    (labels : list string) (confirmed_timeframes : list string)
  : result (list string) :=
  match labels with
  | [] => Ok confirmed_timeframes
  | label :: rest =>
      v <- check_timeframe fetch_candles_fn symbol direction label ;;
      match v with
      | Confirmed =>
          confirm_loop fetch_candles_fn symbol direction rest
                       (confirmed_timeframes ++ [label])
      | _ =>
          confirm_loop fetch_candles_fn symbol direction rest
                       confirmed_timeframes
      end
  end.

Definition detect_reversal_signal (fetch_candles_fn : Fetcher)
    (symbol direction : string) : result bool :=
  confirmed_timeframes <-
    confirm_loop fetch_candles_fn symbol direction TIMEFRAMES [] ;;
  Ok (4 <=? length confirmed_timeframes)%nat.

End reversal_signal.

(** * supply_demand.py *)

Module supply_demand.

Import support_resistance.

Definition ENABLE_ATR_FILTER : bool := false.
Definition ENABLE_BREAKOUT_FILTER : bool := false.
Definition DEFAULT_WINDOW : nat := 20.
Definition DEFAULT_RANGE_FACTOR : Q := 1.0.
Definition DEFAULT_BREAKOUT : Q := 0.1.
Definition DEFAULT_MAX_ZONES : Z := 3.

Definition M15_PAD_FACTOR : Q := 0.5.
Definition JPY_ABS_PAD : Q := 0.01.
Definition PATTERN_LOOKBACK : nat := 3.

Definition get_zone_tolerance (symbol : string) : Q :=
  let s := pystr.upper symbol in
  if pystr.contains "XAU" s then 1.0
  else if pystr.contains "JPY" s then 0.03
  else 0.0003.

(** A zone is the tuple [(low, high)]. *)
Definition Zone : Type := (Q * Q)%type.

(** [not (high < ex_low or low > ex_high)] *)
Definition overlaps (low high ex_low ex_high : Q) : bool :=
  negb (Qltb high ex_low || Qgtb low ex_high).

(** The inner [for i, (ex_low, ex_high) in enumerate(merged)] loop: the
    first zone of [merged] that overlaps [(low, high)] is replaced by the
    union and the loop breaks ([Some]); [None] is the loop's [else]. *)
Fixpoint absorb (merged : list Zone) (low high : Q) : option (list Zone) :=
  match merged with
  | [] => None
  | (ex_low, ex_high) :: rest =>
      if overlaps low high ex_low ex_high
      then Some ((py_min low ex_low, py_max high ex_high) :: rest)
      else option_map (cons (ex_low, ex_high)) (absorb rest low high)
  end.

(** The body of [for low, high in zones]. *)
Definition merge_step (merged : list Zone) (z : Zone) : list Zone :=
  let '(low, high) := z in
  if Qeq_bool low high then merged
  else match absorb merged low high with
       | Some merged' => merged'
       | None => merged ++ [(low, high)]
       end.

(** [xs[-k:]]: the last [k] elements for a positive [k], the whole list for
    [k = 0] (the slice is then [xs[0:]]), and the list without its first
    [-k] elements for a negative [k]. *)
Definition last_slice {A : Type} (xs : list A) (k : Z) : list A :=
  if (0 <? k)%Z then skipn (length xs - Z.to_nat k) xs
  else skipn (Z.to_nat (- k)) xs.

Definition _merge_zones (zones : list Zone) (max_zones : Z) : list Zone :=
  last_slice (fold_left merge_step zones []) max_zones.

(** [series.max()] and [series.min()] of a column that has a row. *)
Definition series_max (xs : list Q) : Q := reversal_signal.list_max xs.
Definition series_min (xs : list Q) : Q := reversal_signal.list_min xs.

(** The body of [for start in range(len(df) - window)], on the pair
    [(demand, supply)].  [atr] is the last value of the frame's ATR column;
    with both filters switched off it does not reach the result. *)
Definition window_step (df : DataFrame) (window : nat)
    (range_factor breakout_mult atr : Q)
    (acc : list Zone * list Zone) (start : nat)
  : result (list Zone * list Zone) :=
  let '(demand, supply) := acc in
  let w := slice df start (start + window) in
  let spread := series_max (map high w) - series_min (map low w) in
  let ok_spread := negb ENABLE_ATR_FILTER || Qltb spread (range_factor * atr) in
  fc <- iloc w 0 ;;
  lc <- iloc w (-1) ;;
  let move := Qabs (close lc - close fc) in
  let ok_break := negb ENABLE_BREAKOUT_FILTER || Qgtb move (breakout_mult * atr) in
  if ok_spread && ok_break then
    let low := series_min (map low w) in
    let high := series_max (map high w) in
    if Qeq_bool low high then Ok (demand, supply)
    else if Qgtb (close lc) (close fc)
         then Ok (demand ++ [(low, high)], supply)
         else Ok (demand, supply ++ [(low, high)])
  else Ok (demand, supply).

Fixpoint window_loop (df : DataFrame) (window : nat)
    (range_factor breakout_mult atr : Q)
    (acc : list Zone * list Zone) (starts : list nat)
  : result (list Zone * list Zone) :=
  match starts with
  | [] => Ok acc
  | start :: rest =>
      acc' <- window_step df window range_factor breakout_mult atr acc start ;;
      window_loop df window range_factor breakout_mult atr acc' rest
  end.

(** [find_zones] on the bars of a frame.  The ATR column has a row for each
    bar, so the read [df["atr_14"].iat[-1]] that comes before the loop raises
    [IndexError] on a frame without bars; on any other frame [atr] is the
    value it reads. *)
Definition find_zones (df : DataFrame) (atr : Q) (window : nat)
    (range_factor breakout_mult : Q) (max_zones : Z)
  : result (list Zone * list Zone) :=
  match df with
  | [] => Raise IndexError
  | _ :: _ =>
      acc <- window_loop df window range_factor breakout_mult atr ([], [])
                         (range 0 (length df - window)) ;;
      let '(demand, supply) := acc in
      Ok (_merge_zones demand max_zones, _merge_zones supply max_zones)
  end.

(** A frame as the fallback scan receives it: the bars and, when the frame
    has one, its ATR column with the name the column goes by (the indicator
    provider writes [ATR_14]). *)
Record Frame : Type := mkFrame {
  bars : DataFrame;
  atr_column : option (string * list Q)
}.

(** [series.iat[-1]] *)
Definition iat_last (xs : list Q) : result Q :=
  match rev xs with
  | x :: _ => Ok x
  | [] => Raise IndexError
  end.

Section Fallback.

(** The indicator provider: the ATR column that [calculate_indicators]
    appends to a frame that has none. *)
Variable calculate_atr : DataFrame -> list Q.

(** Outcome of the chart-pattern detectors on a window (pattern_detector). *)
Variable holds : pattern_detector.Detector -> DataFrame -> bool.

(** The market as [detect_reversal_signal] finds it: [feed n] serves the
    fetches of the call number [n] made during one scan. *)
Variable feed : nat -> reversal_signal.Fetcher.

(** [find_zones(df, ...)] on a frame: the column names are lower-cased, and
    the indicators are computed when no [atr_14] column is there. *)
Definition find_zones_frame (f : Frame) (window : nat)
    (range_factor breakout_mult : Q) (max_zones : Z)
  : result (list Zone * list Zone) :=
  let column :=
    match atr_column f with
    | Some (name, values) =>
        if (pystr.lower name =? "atr_14")%string then values
        else calculate_atr (bars f)
    | None => calculate_atr (bars f)
    end in
  atr <- iat_last column ;;
  find_zones (bars f) atr window range_factor breakout_mult max_zones.

Definition find_m30_zones (f : Frame) := find_zones_frame f 20 1.0 0.1 3.
Definition find_h1_zones (f : Frame) := find_zones_frame f 20 1.0 0.1 3.
Definition find_h2_zones (f : Frame) := find_zones_frame f 25 1.0 0.1 3.
Definition find_h4_zones (f : Frame) := find_zones_frame f 30 1.0 0.1 3.
Definition find_d1_zones (f : Frame) := find_zones_frame f 10 1.0 0.1 2.

Definition Finder : Type := Frame -> result (list Zone * list Zone).

Definition tf_finders : list (string * Finder) :=
  [ ("M30", find_m30_zones); ("H1", find_h1_zones); ("H2", find_h2_zones);
    ("H4", find_h4_zones); ("D1", find_d1_zones) ]%string.

(** [df_dict.get(tf)] *)
Definition FrameDict : Type := string -> option Frame.

(** Step 1: the price padding. *)
Definition zone_tolerance (df_dict : FrameDict) (symbol : string) : result Q :=
  match df_dict "M15"%string with
  | Some (mkFrame _ (Some (name, values))) =>
      if (name =? "atr_14")%string then
        m15_atr <- iat_last values ;;
        Ok (m15_atr * M15_PAD_FACTOR)
      else
        Ok (if pystr.contains "JPY" (pystr.upper symbol)
            then JPY_ABS_PAD else get_zone_tolerance symbol)
  | _ =>
      Ok (if pystr.contains "JPY" (pystr.upper symbol)
          then JPY_ABS_PAD else get_zone_tolerance symbol)
  end.

(** The chart-pattern check made on a zone hit. *)
Definition chart_confirms (df_dict : FrameDict) (direction : string) : bool :=
  match df_dict "M15"%string with
  | Some m15_df =>
      if (PATTERN_LOOKBACK <=? length (bars m15_df))%nat then
        let look_df := tail PATTERN_LOOKBACK (bars m15_df) in
        match pattern_detector.detect_pattern holds look_df (Some direction) with
        | Some pat =>
            pattern_detector.opt_eqb (pattern_detector.direction pat)
                                     (Some direction)
        | None => false
        end
      else false
  | None => false
  end.

(** The [for low, high in zones] loop of step 2.  [calls] counts the calls
    of [detect_reversal_signal] made so far; the boolean tells whether the
    loop returned from the function on a confirmed zone. *)
Fixpoint scan_zones (df_dict : FrameDict) (direction symbol : string)
    (curr_price zone_tol : Q) (zones : list Zone) (calls : nat)
  : result (bool * nat) :=
  match zones with
  | [] => Ok (false, calls)
  | (low, high) :: rest =>
      if Qleb (low - zone_tol) curr_price && Qleb curr_price (high + zone_tol)
      then
        if chart_confirms df_dict direction then Ok (true, calls)
        else
          r <- reversal_signal.detect_reversal_signal (feed calls) symbol
                                                       direction ;;
          if r then Ok (true, S calls)
          else scan_zones df_dict direction symbol curr_price zone_tol rest
                          (S calls)
      else scan_zones df_dict direction symbol curr_price zone_tol rest calls
  end.

(** The [for tf, fn in tf_finders.items()] loop of step 2; when it ends
    without a confirmed zone the function returns [([], [], None)] (step 3
    before that only prints the nearest zone). *)
Fixpoint scan_timeframes (df_dict : FrameDict) (direction symbol : string)
    (curr_price zone_tol : Q) (finders : list (string * Finder)) (calls : nat)
  : result (list Zone * list Zone * option string) :=
  match finders with
  | [] => Ok ([], [], None)
  | (tf, fn) :: rest =>
      match df_dict tf with
      | None =>
          scan_timeframes df_dict direction symbol curr_price zone_tol rest calls
      | Some df =>
          if negb (reversal_signal.nonempty (bars df)) then
            scan_timeframes df_dict direction symbol curr_price zone_tol rest
                            calls
          else
            found <- fn df ;;
            let '(dz, sz) := found in
            let zones := if (direction =? "BUY")%string then dz else sz in
            hit <- scan_zones df_dict direction symbol curr_price zone_tol
                              zones calls ;;
            let '(confirmed, calls') := hit in
            if confirmed then Ok (dz, sz, Some tf)
            else scan_timeframes df_dict direction symbol curr_price zone_tol
                                 rest calls'
      end
  end.

Definition find_zones_fallback (df_dict : FrameDict) (direction : string)
    (curr_price : Q) (symbol : string)
  : result (list Zone * list Zone * option string) :=
  zone_tol <- zone_tolerance df_dict symbol ;;
  scan_timeframes df_dict direction symbol curr_price zone_tol tf_finders 0.

End Fallback.

End supply_demand.

(** * main.py: the trade decision *)

Module main.

Import candle_patterns.

Definition CANDLE_PATTERN_LOOKBACK : nat := 3.
Definition CHART_PATTERN_LOOKBACK : nat := 40.


(** ** The direction vote *)

(** [[d for d in [momentum_dir, bollinger_dir, rsi_dir] if d]] *)
Definition directions_of (momentum_dir bollinger_dir rsi_dir : option string)
  : list string :=
  flat_map (fun d => match d with
                     | Some s => if (s =? "")%string then [] else [s]
                     | None => []
                     end)
           [momentum_dir; bollinger_dir; rsi_dir].

(** [directions.count(d)] *)
Definition count (directions : list string) (d : string) : nat :=
  count_occ string_dec directions d.

(** [max(iterable, key=key)]: the first element of the iteration whose key
    is the largest; [None] stands for the ValueError on an empty one. *)
Fixpoint max_from (key : string -> nat) (best : string) (rest : list string)
  : string :=
  match rest with
  | [] => best
  | x :: t => if (key best <? key x)%nat then max_from key x t
              else max_from key best t
  end.

Definition max_by_key (key : string -> nat) (xs : list string) : option string :=
  match xs with
  | [] => None
  | x :: t => Some (max_from key x t)
  end.

Section Vote.

(** The order in which a [set] built from a list yields its members.  The
    language leaves it open: CPython lays string members out by their hash,
    which is drawn afresh for each process. *)
Variable set_iter : list string -> list string.

(** [max(set(directions), key=directions.count)], after the guard on an
    empty [directions] ([None] is the rejection "no direction"). *)
Definition direction_vote (momentum_dir bollinger_dir rsi_dir : option string)
  : option string :=
  let directions := directions_of momentum_dir bollinger_dir rsi_dir in
  match directions with
  | [] => None
  | _ :: _ => max_by_key (count directions) (set_iter directions)
  end.

End Vote.

(** What every iteration order of a set satisfies: each member once, and
    exactly the members. *)
Definition set_order (set_iter : list string -> list string) : Prop :=
  forall l, NoDup (set_iter l) /\ (forall x, In x (set_iter l) <-> In x l).

(** ** Score accumulation *)









(** ** The zone gate *)

(** The two tests after [find_zones_fallback]: [true] when the decision is
    rejected. *)
Definition zone_gate_rejects (direction : string)
    (zones_d zones_s : list supply_demand.Zone) : bool :=
  ((direction =? "BUY")%string && negb (reversal_signal.nonempty zones_d)) ||
  ((direction =? "SELL")%string && negb (reversal_signal.nonempty zones_s)).

End main.

(** * Properties *)

(** ** Positional access *)

Lemma iloc_in_range (df : DataFrame) (i : Z) :
  (- Z.of_nat (length df) <= i < Z.of_nat (length df))%Z ->
  exists b, iloc df i = Ok b.
Proof.
  intros Hi. unfold iloc.
  set (n := Z.of_nat (length df)) in *.
  set (j := (if (i <? 0)%Z then (n + i)%Z else i)).
  assert (Hj : (0 <= j < n)%Z).
  { subst j. destruct (i <? 0)%Z eqn:E.
    - apply Z.ltb_lt in E. lia.
    - apply Z.ltb_ge in E. lia. }
  replace ((0 <=? j)%Z && (j <? n)%Z) with true.
  - destruct (nth_error df (Z.to_nat j)) as [b|] eqn:E.
    + now exists b.
    + apply nth_error_None in E. subst n. lia.
  - symmetry. apply andb_true_iff. split.
    + apply Z.leb_le. lia.
    + apply Z.ltb_lt. lia.
Qed.

Lemma iloc_last_nonempty (df : DataFrame) :
  df <> [] -> exists b, iloc df (-1) = Ok b.
Proof.
  intros H. apply iloc_in_range.
  destruct df; [congruence | simpl length; lia].
Qed.

(** ** Candlestick predicates *)

Section CandlePatterns.

Import candle_patterns.

(** The length guard at the head of a predicate, taken on a series that is
    too short ([H]). *)
Ltac short_guard H :=
  match goal with
  | |- ?f ?df = _ => unfold f
  end;
  match goal with
  | |- (if (?a <? ?b)%nat then _ else _) = _ =>
      replace (a <? b)%nat with true
        by (symmetry; apply Nat.ltb_lt; exact H)
  end; reflexivity.

(** C7: on a bar series shorter than the number of bars a candlestick
    predicate reads (one, two or three bars), the predicate returns false
    and raises nothing; this holds for each of the thirteen predicates. *)
Theorem candle_predicate_short_series (p : Pattern) (df : DataFrame) :
  (length df < min_bars p)%nat -> predicate p df = Ok false.
Proof.
  intros H.
  destruct p; simpl in H |- *; short_guard H.
Qed.

Lemma candle_predicate_short_series_witness :
  predicate MorningStar [mkBar 1 2 0 1.5; mkBar 1.5 3 1 2] = Ok false.
Proof.
  apply candle_predicate_short_series. simpl. lia.
Defined.

(** The predicates raise on no series at all: with enough bars every
    position they read exists. *)
Lemma candle_predicate_total (p : Pattern) (df : DataFrame) :
  exists b, predicate p df = Ok b.
Proof.
  destruct (Nat.ltb (length df) (min_bars p)) eqn:E.
  - apply Nat.ltb_lt in E. exists false.
    destruct p; simpl in E |- *; short_guard E.
  - apply Nat.ltb_ge in E.
    destruct p; simpl in E |- *;
      match goal with
      | |- exists b, ?f df = _ => unfold f
      end;
      match goal with
      | |- exists b, (if (?a <? ?b')%nat then _ else _) = _ =>
          replace (a <? b')%nat with false
            by (symmetry; apply Nat.ltb_ge; exact E)
      end;
      repeat match goal with
      | |- exists b, bind (iloc df ?i) _ = _ =>
          let x := fresh "x" in
          let Hx := fresh "Hx" in
          destruct (iloc_in_range df i) as [x Hx]; [lia | rewrite Hx; simpl bind]
      end; eexists; reflexivity.
Qed.

Lemma any_pattern_total (ps : list CandlePredicate) (df : DataFrame) :
  (forall q, In q ps -> exists p, q = predicate p) ->
  exists b, any_pattern ps df = Ok b.
Proof.
  induction ps as [|q ps IH]; intros Hps; simpl.
  - now exists false.
  - destruct (Hps q (or_introl eq_refl)) as [p ->].
    destruct (candle_predicate_total p df) as [b ->]. simpl.
    destruct b.
    + now exists true.
    + apply IH. intros q' Hq'. apply Hps. now right.
Qed.

End CandlePatterns.

(** ** Chart pattern selection *)

Section DetectPattern.

Import pattern_detector.

Variable holds : Detector -> DataFrame -> bool.


Lemma opt_eqb_eq (a b : option string) : opt_eqb a b = true <-> a = b.
Proof.
  destruct a as [x|], b as [y|]; simpl; split; intros H;
    try congruence; try reflexivity.
  - apply String.eqb_eq in H. now subst.
  - inversion H. apply String.eqb_refl.
Qed.

Lemma truthy_some (d : string) : d <> ""%string -> truthy (Some d) = true.
Proof.
  intros H. simpl. destruct (d =? "")%string eqn:E; [|reflexivity].
  apply String.eqb_eq in E. contradiction.
Qed.






End DetectPattern.



(** ** Support and resistance levels: the scan raises nothing *)

Section LevelsTotal.

Import support_resistance.

Lemma scan_bars_ok (highs lows : list Q) (window : nat) (rng : list nat) :
  forall acc,
    (forall i, In i rng -> (i < length highs)%nat /\ (i < length lows)%nat) ->
    exists acc', scan_bars highs lows window acc rng = Ok acc'.
Proof.
  induction rng as [|i rng IH]; intros acc Hrng; simpl.
  - now exists acc.
  - destruct (Hrng i (or_introl eq_refl)) as [Hh Hl].
    unfold scan_bar. destruct acc as [supports resistances].
    unfold at_label.
    destruct (nth_error highs i) as [h|] eqn:Eh;
      [|apply nth_error_None in Eh; lia].
    destruct (nth_error lows i) as [l|] eqn:El;
      [|apply nth_error_None in El; lia].
    simpl. apply IH. intros j Hj. apply Hrng. now right.
Qed.

Lemma range_bound (a b i : nat) : In i (range a b) -> (a <= i < b)%nat.
Proof. unfold range. rewrite in_seq. lia. Qed.

Lemma find_nearest_levels_total (df : DataFrame) (window lookback max_levels : nat) :
  df <> [] ->
  exists levels, find_nearest_levels df window lookback max_levels = Ok levels.
Proof.
  intros Hdf. unfold find_nearest_levels.
  destruct (iloc_last_nonempty df Hdf) as [last ->]. simpl.
  destruct (scan_bars_ok (map high df) (map low df) window
              (range window (Nat.min (Nat.max (length df - window) 0) lookback))
              ([], [])) as [[supports resistances] ->].
  - intros i Hi. apply range_bound in Hi. rewrite !length_map. lia.
  - simpl. eexists. reflexivity.
Qed.

End LevelsTotal.

(** ** The reversal quorum *)

Section ReversalQuorum.

Import candle_patterns support_resistance reversal_signal.

Lemma reversal_patterns_named :
  forall q, In q patterns -> exists p, q = predicate p.
Proof.
  intros q Hq. unfold patterns in Hq. simpl in Hq.
  repeat (destruct Hq as [<-|Hq];
          [first [ now exists BullishEngulfing | now exists BearishEngulfing
                 | now exists Hammer | now exists ShootingStar
                 | now exists MorningStar | now exists EveningStar
                 | now exists Doji | now exists GravestoneDoji
                 | now exists DragonflyDoji | now exists TweezerTop
                 | now exists TweezerBottom | now exists BullishHarami
                 | now exists BearishHarami ]|]).
  contradiction.
Qed.

(** Every configured timeframe requires at least ten bars, so the loop
    body finds each bar it reads. *)
Lemma required_counts (label : string) (need : nat) :
  lookup TF_CANDLE_COUNTS label = Some need -> (10 <= need)%nat.
Proof.
  unfold TF_CANDLE_COUNTS. simpl.
  repeat match goal with
  | |- context [if ?c then _ else _] => destruct c
  end; intros H; inversion H; subst; clear H;
    apply Nat.leb_le; vm_compute; reflexivity.
Qed.

Lemma timeframes_counted (label : string) :
  In label TIMEFRAMES -> exists need, lookup TF_CANDLE_COUNTS label = Some need.
Proof.
  unfold TIMEFRAMES. simpl.
  intros H. repeat (destruct H as [<-|H]; [eexists; reflexivity|]).
  contradiction.
Qed.

Lemma check_timeframe_total (fetch_candles_fn : Fetcher)
    (symbol direction label : string) :
  In label TIMEFRAMES ->
  exists v, check_timeframe fetch_candles_fn symbol direction label = Ok v.
Proof.
  intros Hin. destruct (timeframes_counted label Hin) as [need Hneed].
  pose proof (required_counts label need Hneed) as Hten.
  unfold check_timeframe.
  destruct (fetch_candles_fn symbol label (dict_get TF_CANDLE_COUNTS label 300))
    as [df_full|]; [|now exists Insufficient].
  unfold dict_item. rewrite Hneed. cbn [bind].
  destruct (length df_full <? need)%nat eqn:Elen; [now exists Insufficient|].
  apply Nat.ltb_ge in Elen.
  destruct (iloc_in_range df_full (-1)) as [c1 H1]; [lia|].
  destruct (iloc_in_range df_full (-5)) as [c5 H5]; [lia|].
  destruct (iloc_in_range df_full (-10)) as [c10 H10]; [lia|].
  rewrite H1. cbn [bind].
  destruct (length (tail need df_full) <? 5)%nat; [now exists TooShort|].
  match goal with
  | |- exists v, (if ?c then _ else _) = _ => destruct c
  end; [now exists Choppy|].
  destruct (any_pattern_total patterns (tail need df_full)
              reversal_patterns_named) as [pattern_match ->].
  cbn [bind].
  destruct (find_nearest_levels_total df_full 20 500 3)
    as [[supports resistances] ->].
  { intros ->. simpl in Elen. lia. }
  cbn [bind].
  match goal with
  | |- exists v, (if ?c then _ else _) = _ => destruct c
  end; [now exists NearLevel|].
  rewrite H5, H10. cbn [bind].
  match goal with
  | |- exists v, (if ?c then _ else _) = _ => destruct c
  end; eexists; reflexivity.
Qed.

(** Whether a timeframe confirms on its own. *)
Definition confirms (fetch_candles_fn : Fetcher) (symbol direction label : string)
  : bool :=
  match check_timeframe fetch_candles_fn symbol direction label with
  | Ok Confirmed => true
  | _ => false
  end.

Definition confirming_count (fetch_candles_fn : Fetcher)
    (symbol direction : string) : nat :=
  length (filter (confirms fetch_candles_fn symbol direction) TIMEFRAMES).

Lemma confirm_loop_collects (fetch_candles_fn : Fetcher)
    (symbol direction : string) (labels : list string) :
  (forall l, In l labels -> In l TIMEFRAMES) ->
  forall acc,
    confirm_loop fetch_candles_fn symbol direction labels acc
    = Ok (acc ++ filter (confirms fetch_candles_fn symbol direction) labels).
Proof.
  induction labels as [|label labels IH]; intros Hsub acc; simpl.
  - now rewrite app_nil_r.
  - destruct (check_timeframe_total fetch_candles_fn symbol direction label)
      as [v Hv]; [apply Hsub; now left|].
    unfold confirms at 1. rewrite Hv. simpl bind.
    assert (Hrest : forall l, In l labels -> In l TIMEFRAMES)
      by (intros l Hl; apply Hsub; now right).
    destruct v; rewrite (IH Hrest); try reflexivity.
    now rewrite <- app_assoc.
Qed.

Lemma detect_reversal_signal_count (fetch_candles_fn : Fetcher)
    (symbol direction : string) :
  detect_reversal_signal fetch_candles_fn symbol direction
  = Ok (4 <=? confirming_count fetch_candles_fn symbol direction)%nat.
Proof.
  unfold detect_reversal_signal, confirming_count.
  rewrite confirm_loop_collects by auto. reflexivity.
Qed.

(** C6: [detect_reversal_signal] returns true exactly when at least four of
    the eight configured timeframes confirm on their own, and false
    otherwise (it raises nothing); in particular four confirming and four
    rejecting timeframes give true, three confirming and five rejecting
    give false. *)
Theorem reversal_quorum (fetch_candles_fn : Fetcher) (symbol direction : string) :
  length TIMEFRAMES = 8%nat /\
  (detect_reversal_signal fetch_candles_fn symbol direction = Ok true <->
   (4 <= confirming_count fetch_candles_fn symbol direction)%nat) /\
  (detect_reversal_signal fetch_candles_fn symbol direction = Ok false <->
   (confirming_count fetch_candles_fn symbol direction < 4)%nat) /\
  (confirming_count fetch_candles_fn symbol direction = 4%nat ->
   detect_reversal_signal fetch_candles_fn symbol direction = Ok true) /\
  (confirming_count fetch_candles_fn symbol direction = 3%nat ->
   detect_reversal_signal fetch_candles_fn symbol direction = Ok false).
Proof.
  rewrite detect_reversal_signal_count.
  set (n := confirming_count fetch_candles_fn symbol direction).
  repeat split.
  - intros H. inversion H as [Hb]. now apply Nat.leb_le.
  - intros H. apply Nat.leb_le in H. now rewrite H.
  - intros H. inversion H as [Hb]. now apply Nat.leb_gt.
  - intros H. apply Nat.leb_gt in H. now rewrite H.
  - intros ->. reflexivity.
  - intros ->. reflexivity.
Qed.

End ReversalQuorum.

(** Synthetic feeds.  A frame of identical rising hammers confirms on every
    timeframe: the bias is strong, the hammer matches, and no bar is a swing.
    A frame of identical falling bars is skipped as choppy; a missing frame
    and a frame one bar short are insufficient data. *)
Definition rising_hammer : Bar := mkBar 1 2 (-2) 2.
Definition falling_bar : Bar := mkBar 2 2 1 1.

Definition feed_four_confirm : reversal_signal.Fetcher :=
  fun _ label count =>
    if existsb (String.eqb label) ["M1"; "M5"; "M15"; "H4"]%string
    then Some (repeat rising_hammer count)
    else if (label =? "H1")%string then Some (repeat falling_bar count)
    else if (label =? "D1")%string then Some (repeat rising_hammer (count - 1))
    else None.

Definition feed_three_confirm : reversal_signal.Fetcher :=
  fun _ label count =>
    if existsb (String.eqb label) ["M5"; "M30"; "D1"]%string
    then Some (repeat rising_hammer count)
    else if (label =? "H1")%string then Some (repeat falling_bar count)
    else if (label =? "M1")%string then Some (repeat rising_hammer (count - 1))
    else None.

Lemma reversal_quorum_witness :
  reversal_signal.detect_reversal_signal feed_four_confirm "EURUSD" "BUY"
    = Ok true /\
  reversal_signal.detect_reversal_signal feed_three_confirm "EURUSD" "BUY"
    = Ok false.
Proof.
  split.
  - apply (proj1 (proj2 (proj2 (proj2
             (reversal_quorum feed_four_confirm "EURUSD" "BUY"))))).
    vm_compute. reflexivity.
  - apply (proj2 (proj2 (proj2 (proj2
             (reversal_quorum feed_three_confirm "EURUSD" "BUY"))))).
    vm_compute. reflexivity.
Defined.

(** ** Where the levels come from *)

Section LevelOrigin.

Import support_resistance.

(** Position [i] holds a swing high (low) of value [v]. *)
Definition swing_high_at (df : DataFrame) (window i : nat) (v : Q) : Prop :=
  exists b, nth_error df i = Some b /\ high b = v /\
            is_swing_high (map high df) window i v = true.

Definition swing_low_at (df : DataFrame) (window i : nat) (v : Q) : Prop :=
  exists b, nth_error df i = Some b /\ low b = v /\
            is_swing_low (map low df) window i v = true.

(** The property the specification gives the levels: each one is a swing
    among the last [lookback] bars of the series. *)
Definition levels_within_lookback (df : DataFrame) (window lookback : nat)
    (levels : list Q * list Q) : Prop :=
  (forall s, In s (fst levels) ->
     exists i, (length df - lookback <= i < length df)%nat /\
               swing_low_at df window i s) /\
  (forall r, In r (snd levels) ->
     exists i, (length df - lookback <= i < length df)%nat /\
               swing_high_at df window i r).

(** What the loop does: each level is a swing at a position between
    [window] and [min(len(df) - window, lookback)], counted from the oldest
    bar. *)
Definition levels_from_scanned (df : DataFrame) (window lookback : nat)
    (levels : list Q * list Q) : Prop :=
  (forall s, In s (fst levels) ->
     exists i, (window <= i < Nat.min (length df - window) lookback)%nat /\
               swing_low_at df window i s) /\
  (forall r, In r (snd levels) ->
     exists i, (window <= i < Nat.min (length df - window) lookback)%nat /\
               swing_high_at df window i r).

Lemma in_insert_by (leb : Q -> Q -> bool) (x y : Q) (l : list Q) :
  In x (insert_by leb y l) -> x = y \/ In x l.
Proof.
  induction l as [|z l IH]; simpl.
  - intros [H|[]]; auto.
  - destruct (leb y z); simpl.
    + intros [H|[H|H]]; auto.
    + intros [H|H]; auto. destruct (IH H); auto.
Qed.

Lemma in_sorted_by (leb : Q -> Q -> bool) (x : Q) (l : list Q) :
  In x (fold_right (insert_by leb) [] l) -> In x l.
Proof.
  induction l as [|y l IH]; simpl; [auto|].
  intros H. apply in_insert_by in H. destruct H; auto.
Qed.

Lemma in_firstn {A : Type} (n : nat) (l : list A) (x : A) :
  In x (firstn n l) -> In x l.
Proof.
  revert l. induction n as [|n IH]; intros [|y l]; simpl; try tauto.
  intros [H|H]; auto.
Qed.

Lemma nth_error_map_some {A B : Type} (f : A -> B) (l : list A) (i : nat) (v : B) :
  nth_error (map f l) i = Some v -> exists a, nth_error l i = Some a /\ f a = v.
Proof.
  revert i. induction l as [|a l IH]; intros [|i]; simpl; try discriminate.
  - intros H. inversion H. now exists a.
  - apply IH.
Qed.

Lemma scan_bars_origin (df : DataFrame) (window lo hi : nat) (rng : list nat) :
  (forall i, In i rng -> (lo <= i < hi)%nat) ->
  forall acc acc',
    scan_bars (map high df) (map low df) window acc rng = Ok acc' ->
    (forall s, In s (fst acc) ->
       exists i, (lo <= i < hi)%nat /\ swing_low_at df window i s) ->
    (forall r, In r (snd acc) ->
       exists i, (lo <= i < hi)%nat /\ swing_high_at df window i r) ->
    (forall s, In s (fst acc') ->
       exists i, (lo <= i < hi)%nat /\ swing_low_at df window i s) /\
    (forall r, In r (snd acc') ->
       exists i, (lo <= i < hi)%nat /\ swing_high_at df window i r).
Proof.
  induction rng as [|i rng IH]; intros Hrng acc acc' Hscan Hs Hr; simpl in Hscan.
  - inversion Hscan. subst. auto.
  - destruct acc as [supports resistances]. unfold scan_bar in Hscan.
    unfold at_label in Hscan.
    destruct (nth_error (map high df) i) as [h|] eqn:Eh; [|discriminate].
    destruct (nth_error (map low df) i) as [l|] eqn:El; [|discriminate].
    cbn [bind] in Hscan.
    assert (Hi : (lo <= i < hi)%nat) by (apply Hrng; now left).
    apply nth_error_map_some in Eh. destruct Eh as [bh [Ebh Hh]].
    apply nth_error_map_some in El. destruct El as [bl [Ebl Hl]].
    eapply IH; [| exact Hscan | |].
    + intros j Hj. apply Hrng. now right.
    + simpl. intros s Hin.
      destruct (is_swing_low (map low df) window i l) eqn:Esw; [|now apply Hs].
      apply in_app_or in Hin. destruct Hin as [Hin|[<-|[]]]; [now apply Hs|].
      exists i. split; [exact Hi|]. now exists bl.
    + simpl. intros r Hin.
      destruct (is_swing_high (map high df) window i h) eqn:Esw; [|now apply Hr].
      apply in_app_or in Hin. destruct Hin as [Hin|[<-|[]]]; [now apply Hr|].
      exists i. split; [exact Hi|]. now exists bh.
Qed.

(** Every level returned is a swing of the scanned positions. *)
Lemma find_nearest_levels_origin (df : DataFrame)
    (window lookback max_levels : nat) (levels : list Q * list Q) :
  find_nearest_levels df window lookback max_levels = Ok levels ->
  levels_from_scanned df window lookback levels.
Proof.
  unfold find_nearest_levels. intros H.
  destruct (iloc df (-1)) as [last|]; [|discriminate]. cbn [bind] in H.
  destruct (scan_bars (map high df) (map low df) window ([], [])
              (range window (Nat.min (Nat.max (length df - window) 0) lookback)))
    as [[supports resistances]|] eqn:Escan; [|discriminate].
  cbn [bind] in H. inversion H; subst; clear H.
  assert (Hrng : forall i,
             In i (range window
                     (Nat.min (Nat.max (length df - window) 0) lookback)) ->
             (window <= i < Nat.min (length df - window) lookback)%nat).
  { intros i Hi. apply range_bound in Hi. rewrite Nat.max_0_r in Hi. exact Hi. }
  destruct (scan_bars_origin df window _ _ _ Hrng _ _ Escan) as [Hs Hr].
  - intros s [].
  - intros r [].
  - split; simpl; intros v Hv.
    + apply in_firstn, in_sorted_by, filter_In in Hv. now apply Hs.
    + apply in_firstn, in_sorted_by, filter_In in Hv. now apply Hr.
Qed.

End LevelOrigin.

(** A frame of 1500 bars (the H1 count of the reversal engine), flat but for
    one spike at position 100, scanned as the reversal engine scans it
    (window 20, lookback 500, three levels). *)
Definition flat_bar : Bar := mkBar 1 2 0 1.
Definition spike_bar : Bar := mkBar 1 3 0 1.

Definition old_spike_frame : DataFrame :=
  repeat flat_bar 100 ++ [spike_bar] ++ repeat flat_bar 1399.

Lemma nth_error_in_skipn {A : Type} (l : list A) (k i : nat) (x : A) :
  (k <= i)%nat -> nth_error l i = Some x -> In x (skipn k l).
Proof.
  intros Hk Hx. apply nth_error_In with (n := (i - k)%nat).
  rewrite nth_error_skipn. now replace (k + (i - k))%nat with i by lia.
Qed.

(** C4, on the code: the spike, 1400 bars back, is returned as a resistance
    although none of the last 500 bars has that high; the loop scans the
    positions 20 to 499 counted from the oldest bar. *)
Theorem find_nearest_levels_old_swing :
  support_resistance.find_nearest_levels old_spike_frame 20 500 3
    = Ok ([], [3]) /\
  ~ levels_within_lookback old_spike_frame 20 500 ([], [3]).
Proof.
  split; [vm_compute; reflexivity|].
  intros [_ Hr]. destruct (Hr 3 (or_introl eq_refl)) as [i [Hi [b [Hb [Hhigh _]]]]].
  assert (Hlen : length old_spike_frame = 1500%nat) by (vm_compute; reflexivity).
  rewrite Hlen in Hi.
  assert (Hin : In b (skipn 1000 old_spike_frame))
    by (apply (nth_error_in_skipn _ 1000 i); [lia | exact Hb]).
  assert (Hall : forallb (fun x => Qeq_bool (high x) 2) (skipn 1000 old_spike_frame)
                 = true) by (vm_compute; reflexivity).
  rewrite forallb_forall in Hall. apply Hall in Hin.
  rewrite Hhigh in Hin. vm_compute in Hin. discriminate.
Qed.

(** ** Zone merging *)

Section ZoneMerging.

Import supply_demand.

(** Two zones are disjoint when one lies wholly below the other. *)
Definition zones_disjoint (a b : Zone) : Prop :=
  snd a < fst b \/ snd b < fst a.

(** No two zones of the list, taken at distinct positions, overlap. *)
Definition pairwise_disjoint (zs : list Zone) : Prop :=
  forall i j a b,
    i <> j -> nth_error zs i = Some a -> nth_error zs j = Some b ->
    zones_disjoint a b.

End ZoneMerging.

(** A rise and a fall, as [find_h1_zones] scans it (window 20, three zones):
    a hundred bars, each spanning one unit around its close; the closes dip
    from 2 to 1, stay there, climb to 41 and come back down to 1. *)
Definition bar_around (c : Z) : Bar :=
  mkBar (inject_Z c) (inject_Z (c + 1)) (inject_Z (c - 1)) (inject_Z c).

Definition rise_and_fall_closes : list Z :=
  [2%Z] ++ repeat 1%Z 19
  ++ map (fun i => Z.of_nat i - 18)%Z (seq 20 40)
  ++ map (fun i => 100 - Z.of_nat i)%Z (seq 60 40).

Definition rise_and_fall : DataFrame := map bar_around rise_and_fall_closes.

(** Three candidate intervals: the third one bridges the first two. *)
Definition bridged_zones : list supply_demand.Zone :=
  [ (0, 1); (3, 4); (0.5, 3.5) ].

(** C3, on the code: the third interval is united with the first zone it
    overlaps and the union is not compared with the zones after it, so the
    result holds two zones that overlap on [3, 3.5]; the supply side that
    [find_zones] returns for the rise and fall overlaps on [4, 24] in the
    same way. *)
Theorem merge_zones_leaves_overlap :
  supply_demand._merge_zones bridged_zones 3 = [ (0, 3.5); (3, 4) ] /\
  ~ pairwise_disjoint (supply_demand._merge_zones bridged_zones 3) /\
  (forall atr,
     supply_demand.find_zones rise_and_fall atr 20 1.0 0.1 3
     = Ok ([ (0, 42) ], [ (0, 24); (4, 42) ])) /\
  ~ pairwise_disjoint [ (0, 24); (4, 42) ].
Proof.
  split; [vm_compute; reflexivity|]. split.
  - intros H.
    destruct (H 0%nat 1%nat (0, 3.5) (3, 4)) as [Hd|Hd];
      try discriminate; try reflexivity;
      vm_compute in Hd; discriminate.
  - split; [intros atr; vm_compute; reflexivity|].
    intros H.
    destruct (H 0%nat 1%nat (0, 24) (4, 42)) as [Hd|Hd];
      try discriminate; try reflexivity;
      vm_compute in Hd; discriminate.
Qed.

(** C2, on the code: merging the result of a merge once more changes it.
    The two overlapping zones left by the first pass are united by the
    second. *)
Theorem merge_zones_not_idempotent :
  supply_demand._merge_zones (supply_demand._merge_zones bridged_zones 3) 3
    = [ (0, 4) ] /\
  supply_demand._merge_zones (supply_demand._merge_zones bridged_zones 3) 3
    <> supply_demand._merge_zones bridged_zones 3 /\
  supply_demand._merge_zones [ (0, 24); (4, 42) ] 3 = [ (0, 42) ].
Proof.
  split; [vm_compute; reflexivity|].
  split; [|vm_compute; reflexivity].
  vm_compute. discriminate.
Qed.

(** ** Order facts on the float operations *)

Lemma Qltb_lt (x y : Q) : Qltb x y = true <-> x < y.
Proof.
  unfold Qltb. rewrite negb_true_iff. split.
  - intros H. apply Qnot_le_lt. intros Hle.
    apply Qle_bool_iff in Hle. congruence.
  - intros H. destruct (Qle_bool y x) eqn:E; [|reflexivity].
    apply Qle_bool_iff in E. exfalso. apply (Qlt_not_le _ _ H E).
Qed.

Lemma Qltb_ge (x y : Q) : Qltb x y = false <-> y <= x.
Proof.
  unfold Qltb. rewrite negb_false_iff. apply Qle_bool_iff.
Qed.

Lemma Qleb_le (x y : Q) : Qleb x y = true <-> x <= y.
Proof. apply Qle_bool_iff. Qed.

Lemma py_min_spec (a b : Q) : py_min a b <= a /\ py_min a b <= b.
Proof.
  unfold py_min. destruct (Qltb b a) eqn:E.
  - apply Qltb_lt in E. split; [now apply Qlt_le_weak | apply Qle_refl].
  - apply Qltb_ge in E. split; [apply Qle_refl | exact E].
Qed.

Lemma py_max_spec (a b : Q) : a <= py_max a b /\ b <= py_max a b.
Proof.
  unfold py_max, Qgtb. destruct (Qltb a b) eqn:E.
  - apply Qltb_lt in E. split; [now apply Qlt_le_weak | apply Qle_refl].
  - apply Qltb_ge in E. split; [apply Qle_refl | exact E].
Qed.

Lemma fold_py_min_le (t : list Q) :
  forall x, fold_left py_min t x <= x /\
            forall y, In y t -> fold_left py_min t x <= y.
Proof.
  induction t as [|z t IH]; intros x; simpl.
  - split; [apply Qle_refl | intros y []].
  - destruct (IH (py_min x z)) as [H0 Ht].
    destruct (py_min_spec x z) as [Hx Hz]. split.
    + eapply Qle_trans; eauto.
    + intros y [<-|Hy]; [eapply Qle_trans; eauto | now apply Ht].
Qed.

Lemma fold_py_max_ge (t : list Q) :
  forall x, x <= fold_left py_max t x /\
            forall y, In y t -> y <= fold_left py_max t x.
Proof.
  induction t as [|z t IH]; intros x; simpl.
  - split; [apply Qle_refl | intros y []].
  - destruct (IH (py_max x z)) as [H0 Ht].
    destruct (py_max_spec x z) as [Hx Hz]. split.
    + eapply Qle_trans; eauto.
    + intros y [<-|Hy]; [eapply Qle_trans; eauto | now apply Ht].
Qed.

Lemma list_min_le (xs : list Q) (y : Q) :
  In y xs -> reversal_signal.list_min xs <= y.
Proof.
  destruct xs as [|x t]; [intros []|]. simpl.
  destruct (fold_py_min_le t x) as [H0 Ht].
  intros [<-|Hy]; auto.
Qed.

Lemma list_max_ge (xs : list Q) (y : Q) :
  In y xs -> y <= reversal_signal.list_max xs.
Proof.
  destruct xs as [|x t]; [intros []|]. simpl.
  destruct (fold_py_max_ge t x) as [H0 Ht].
  intros [<-|Hy]; auto.
Qed.

(** ** Zones are ordered intervals *)

Section ZoneOrder.

Import support_resistance supply_demand.







Lemma forall_skipn {A : Type} (P : A -> Prop) (k : nat) (l : list A) :
  Forall P l -> Forall P (skipn k l).
Proof.
  revert l. induction k as [|k IH]; intros [|x l] H; simpl; auto.
  inversion H; subst. now apply IH.
Qed.


Lemma slice_length (df : DataFrame) (start window : nat) :
  (start + window <= length df)%nat ->
  length (slice df start (start + window)) = window.
Proof.
  intros H. unfold slice. rewrite length_firstn, length_skipn. lia.
Qed.

Lemma slice_incl (df : DataFrame) (a b : nat) (x : Bar) :
  In x (slice df a b) -> In x df.
Proof.
  unfold slice. intros H. apply in_firstn in H.
  revert H. generalize a. clear. intros a.
  revert df. induction a as [|a IH]; intros [|y df]; simpl; auto.
Qed.






(** On a frame with a bar [find_zones] is its loop followed by the two
    merges. *)
Lemma find_zones_with_bars (df : DataFrame) (atr : Q) (window : nat)
    (range_factor breakout_mult : Q) (max_zones : Z) :
  df <> [] ->
  find_zones df atr window range_factor breakout_mult max_zones
  = (acc <- window_loop df window range_factor breakout_mult atr ([], [])
                        (range 0 (length df - window)) ;;
     let '(demand, supply) := acc in
     Ok (_merge_zones demand max_zones, _merge_zones supply max_zones)).
Proof.
  intros Hne. unfold find_zones. destruct df; [contradiction|reflexivity].
Qed.



End ZoneOrder.






(** ** When merging is idempotent *)

Section MergeFixpoint.

Import supply_demand.

Definition nondegenerate (z : Zone) : Prop := Qeq_bool (fst z) (snd z) = false.

Lemma Qeq_bool_false (x y : Q) : Qeq_bool x y = false <-> ~ x == y.
Proof.
  split.
  - intros H E. apply Qeq_bool_iff in E. congruence.
  - intros H. destruct (Qeq_bool x y) eqn:E; [|reflexivity].
    apply Qeq_bool_iff in E. contradiction.
Qed.

Lemma overlaps_spec (low high ex_low ex_high : Q) :
  overlaps low high ex_low ex_high = true <-> ex_low <= high /\ low <= ex_high.
Proof.
  unfold overlaps, Qgtb. rewrite negb_true_iff, orb_false_iff, !Qltb_ge.
  tauto.
Qed.

Lemma overlaps_disjoint (low high ex_low ex_high : Q) :
  zones_disjoint (ex_low, ex_high) (low, high) ->
  overlaps low high ex_low ex_high = false.
Proof.
  unfold zones_disjoint. simpl. intros H.
  destruct (overlaps low high ex_low ex_high) eqn:E; [|reflexivity].
  apply overlaps_spec in E. destruct E as [E1 E2]. exfalso.
  destruct H as [H|H].
  - apply (Qlt_not_le _ _ H E2).
  - apply (Qlt_not_le _ _ H E1).
Qed.

(** The union of two overlapping zones is degenerate only if both are. *)
Lemma union_nondegenerate (low high ex_low ex_high : Q) :
  overlaps low high ex_low ex_high = true ->
  nondegenerate (low, high) ->
  nondegenerate (py_min low ex_low, py_max high ex_high).
Proof.
  unfold nondegenerate. simpl. intros Ho Hz.
  apply overlaps_spec in Ho. destruct Ho as [H1 H2].
  apply Qeq_bool_false. apply Qeq_bool_false in Hz. intros E. apply Hz.
  destruct (py_min_spec low ex_low) as [M1 M2].
  destruct (py_max_spec high ex_high) as [X1 X2].
  apply Qle_antisym.
  - eapply Qle_trans; [exact H2|]. eapply Qle_trans; [exact X2|].
    rewrite <- E. eapply Qle_trans; [exact M2|exact H1].
  - eapply Qle_trans; [exact X1|]. rewrite <- E. exact M1.
Qed.

Lemma absorb_nondegenerate (merged : list Zone) (low high : Q) :
  nondegenerate (low, high) -> Forall nondegenerate merged ->
  forall merged', absorb merged low high = Some merged' ->
                  Forall nondegenerate merged'.
Proof.
  intros Hz. induction merged as [|[ex_low ex_high] rest IH];
    intros Hm merged' H; simpl in H; [discriminate|].
  inversion Hm as [|? ? Hex Hrest]; subst.
  destruct (overlaps low high ex_low ex_high) eqn:Eo.
  - inversion H; subst. constructor; [|exact Hrest].
    now apply union_nondegenerate.
  - destruct (absorb rest low high) as [m|] eqn:E; [|discriminate].
    inversion H; subst. constructor; [exact Hex|]. now apply IH.
Qed.

(** No zone kept by the merge loop is a single price. *)
Lemma merge_fold_nondegenerate (zones : list Zone) :
  forall merged, Forall nondegenerate merged ->
                 Forall nondegenerate (fold_left merge_step zones merged).
Proof.
  induction zones as [|[low high] zones IH]; intros merged Hm; simpl;
    [exact Hm|].
  apply IH. destruct (Qeq_bool low high) eqn:Ez; [exact Hm|].
  destruct (absorb merged low high) as [m|] eqn:Ea.
  - now apply (absorb_nondegenerate merged low high Ez Hm).
  - apply Forall_app. split; [exact Hm|]. now repeat constructor.
Qed.

Lemma absorb_disjoint (merged : list Zone) (low high : Q) :
  (forall a, In a merged -> zones_disjoint a (low, high)) ->
  absorb merged low high = None.
Proof.
  induction merged as [|[ex_low ex_high] rest IH]; intros H; simpl;
    [reflexivity|].
  rewrite overlaps_disjoint by (apply H; now left).
  rewrite IH; [reflexivity|]. intros a Ha. apply H. now right.
Qed.

(** On zones that are pairwise disjoint and disjoint from those already
    kept, the merge loop only appends. *)
Lemma merge_fold_disjoint (zones : list Zone) :
  forall merged,
    Forall nondegenerate zones ->
    ForallOrdPairs zones_disjoint zones ->
    (forall a b, In a merged -> In b zones -> zones_disjoint a b) ->
    fold_left merge_step zones merged = merged ++ zones.
Proof.
  induction zones as [|[low high] zones IH]; intros merged Hn Hp Hm; simpl.
  - now rewrite app_nil_r.
  - inversion Hn as [|? ? Hz Hn']; subst.
    inversion Hp as [|? ? Hfirst Hp']; subst.
    unfold nondegenerate in Hz. simpl in Hz. rewrite Hz.
    rewrite absorb_disjoint by (intros a Ha; apply Hm; [exact Ha|now left]).
    rewrite IH; auto.
    + now rewrite <- app_assoc.
    + intros a b Ha Hb. apply in_app_or in Ha. destruct Ha as [Ha|[<-|[]]].
      * apply Hm; [exact Ha|now right].
      * rewrite Forall_forall in Hfirst. now apply Hfirst.
Qed.

Lemma pairwise_disjoint_ordered (zs : list Zone) :
  pairwise_disjoint zs -> ForallOrdPairs zones_disjoint zs.
Proof.
  induction zs as [|z zs IH]; intros H; constructor.
  - apply Forall_forall. intros b Hb.
    apply In_nth_error in Hb. destruct Hb as [j Hj].
    apply (H 0%nat (S j)); [discriminate|reflexivity|exact Hj].
  - apply IH. intros i j a b Hij Ha Hb.
    apply (H (S i) (S j)); [congruence|exact Ha|exact Hb].
Qed.

Lemma last_slice_short {A : Type} (xs : list A) (k : Z) :
  (0 <= k)%Z -> (k = 0%Z \/ Z.of_nat (length xs) <= k)%Z ->
  last_slice xs k = xs.
Proof.
  intros Hk H. unfold last_slice. destruct (0 <? k)%Z eqn:E.
  - apply Z.ltb_lt in E.
    replace (length xs - Z.to_nat k)%nat with 0%nat by lia. reflexivity.
  - apply Z.ltb_ge in E. replace k with 0%Z by lia. reflexivity.
Qed.

Lemma last_slice_length {A : Type} (xs : list A) (k : Z) :
  (0 < k)%Z -> (Z.of_nat (length (last_slice xs k)) <= k)%Z.
Proof.
  intros Hk. unfold last_slice.
  replace (0 <? k)%Z with true by (symmetry; now apply Z.ltb_lt).
  rewrite length_skipn. lia.
Qed.

(** The merge is idempotent on the results that are free of overlaps: for
    a cap that is not negative, a merged list whose zones are pairwise
    disjoint is returned unchanged by a second merge. *)
Lemma merge_zones_fixpoint (zones : list Zone) (max_zones : Z) :
  (0 <= max_zones)%Z ->
  pairwise_disjoint (_merge_zones zones max_zones) ->
  _merge_zones (_merge_zones zones max_zones) max_zones
  = _merge_zones zones max_zones.
Proof.
  intros Hk Hdisj.
  set (out := _merge_zones zones max_zones) in *.
  assert (Hn : Forall nondegenerate out).
  { unfold out, _merge_zones, last_slice.
    destruct (0 <? max_zones)%Z; apply forall_skipn;
      apply merge_fold_nondegenerate; constructor. }
  unfold _merge_zones at 1.
  rewrite merge_fold_disjoint; auto.
  - simpl. apply last_slice_short; [exact Hk|].
    destruct (Z.eq_dec max_zones 0) as [->|Hnz]; [now left|right].
    unfold out, _merge_zones. apply last_slice_length. lia.
  - now apply pairwise_disjoint_ordered.
  - intros a b [].
Qed.

End MergeFixpoint.

(** ** The fallback scan without a confirmation *)

Section FallbackUnconfirmed.

Import support_resistance supply_demand.

Variable calculate_atr : DataFrame -> list Q.
Variable holds : pattern_detector.Detector -> DataFrame -> bool.
Variable feed : nat -> reversal_signal.Fetcher.

(** The ATR column of a frame, when it has one, has a value for each bar. *)
Definition frame_aligned (f : Frame) : Prop :=
  match atr_column f with
  | Some (_, values) => length values = length (bars f)
  | None => True
  end.

Lemma window_step_total (df : DataFrame) (window : nat)
    (range_factor breakout_mult atr : Q) (acc : list Zone * list Zone)
    (start : nat) :
  (1 <= window)%nat -> (start + window <= length df)%nat ->
  exists acc',
    window_step df window range_factor breakout_mult atr acc start = Ok acc'.
Proof.
  intros Hw Hlen. destruct acc as [demand supply]. unfold window_step.
  set (w := slice df start (start + window)).
  assert (Hwl : length w = window) by (now apply slice_length).
  destruct (iloc_in_range w 0) as [fc ->]; [lia|].
  destruct (iloc_in_range w (-1)) as [lc ->]; [lia|].
  cbn [bind].
  destruct (_ && _); [|eexists; reflexivity].
  destruct (Qeq_bool _ _); [eexists; reflexivity|].
  destruct (Qgtb _ _); eexists; reflexivity.
Qed.

Lemma window_loop_total (df : DataFrame) (window : nat)
    (range_factor breakout_mult atr : Q) (starts : list nat) :
  (1 <= window)%nat ->
  (forall s, In s starts -> (s + window <= length df)%nat) ->
  forall acc,
    exists acc',
      window_loop df window range_factor breakout_mult atr acc starts = Ok acc'.
Proof.
  intros Hw. induction starts as [|s starts IH]; intros Hs acc; simpl.
  - now exists acc.
  - destruct (window_step_total df window range_factor breakout_mult atr acc s)
      as [acc1 ->]; auto.
    { apply Hs. now left. }
    cbn [bind]. apply IH. intros s' Hs'. apply Hs. now right.
Qed.

(** With a window of at least one bar [find_zones] returns on a frame that
    has a bar. *)
Lemma find_zones_total (df : DataFrame) (atr : Q) (window : nat)
    (range_factor breakout_mult : Q) (max_zones : Z) :
  (1 <= window)%nat -> df <> [] ->
  exists zones,
    find_zones df atr window range_factor breakout_mult max_zones = Ok zones.
Proof.
  intros Hw Hne. rewrite (find_zones_with_bars _ _ _ _ _ _ Hne).
  destruct (window_loop_total df window range_factor breakout_mult atr
              (range 0 (length df - window)) Hw) with (acc := (@nil Zone, @nil Zone))
    as [[demand supply] ->].
  - intros s Hs. apply range_bound in Hs. lia.
  - cbn [bind]. eexists. reflexivity.
Qed.

Lemma iat_last_total (xs : list Q) :
  xs <> [] -> exists x, iat_last xs = Ok x.
Proof.
  intros H. unfold iat_last. destruct (rev xs) as [|x t] eqn:E.
  - apply (f_equal (@rev Q)) in E. rewrite rev_involutive in E. contradiction.
  - now exists x.
Qed.

Hypothesis calculate_atr_aligned :
  forall df, length (calculate_atr df) = length df.

Lemma find_zones_frame_total (f : Frame) (window : nat)
    (range_factor breakout_mult : Q) (max_zones : Z) :
  (1 <= window)%nat -> frame_aligned f -> bars f <> [] ->
  exists zones,
    find_zones_frame calculate_atr f window range_factor breakout_mult max_zones
    = Ok zones.
Proof.
  intros Hw Hal Hne. unfold find_zones_frame.
  match goal with
  | |- exists zones, bind (iat_last ?col) _ = _ =>
      assert (Hcol : col <> [])
  end.
  { assert (Hcalc : calculate_atr (bars f) <> []).
    { intros E. apply (f_equal (@length Q)) in E.
      rewrite calculate_atr_aligned in E. destruct (bars f); simpl in E; congruence. }
    unfold frame_aligned in Hal.
    destruct (atr_column f) as [[name values]|]; [|exact Hcalc].
    destruct (pystr.lower name =? "atr_14")%string; [|exact Hcalc].
    intros E. rewrite E in Hal. destruct (bars f); simpl in Hal; congruence. }
  destruct (iat_last_total _ Hcol) as [atr ->]. cbn [bind].
  now apply find_zones_total.
Qed.

Lemma tf_finders_total (tf : string) (fn : Finder) (f : Frame) :
  In (tf, fn) (tf_finders calculate_atr) ->
  frame_aligned f -> bars f <> [] ->
  exists zones, fn f = Ok zones.
Proof.
  unfold tf_finders. simpl. intros Hin Hal Hne.
  repeat (destruct Hin as [Hin|Hin];
          [inversion Hin; subst; apply find_zones_frame_total; auto; lia|]).
  contradiction.
Qed.

Variables (df_dict : FrameDict) (direction symbol : string) (curr_price : Q).

(** The price lies in the zone widened by the padding. *)
Definition in_tolerance (zone_tol : Q) (z : Zone) : bool :=
  Qleb (fst z - zone_tol) curr_price && Qleb curr_price (snd z + zone_tol).

(** The side of a zone pair that the direction asks for. *)
Definition required_side (found : list Zone * list Zone) : list Zone :=
  if (direction =? "BUY")%string then fst found else snd found.

(** No confirmation is produced: whichever zone of the required side the
    price touches, on whichever timeframe, the chart-pattern check fails and
    so does every call of the reversal consensus. *)
Definition no_confirmation : Prop :=
  forall zone_tol tf fn f found z,
    zone_tolerance df_dict symbol = Ok zone_tol ->
    In (tf, fn) (tf_finders calculate_atr) ->
    df_dict tf = Some f ->
    fn f = Ok found ->
    In z (required_side found) ->
    in_tolerance zone_tol z = true ->
    chart_confirms holds df_dict direction = false /\
    forall n,
      reversal_signal.detect_reversal_signal (feed n) symbol direction
      = Ok false.

(** Without a confirmation the zone loop runs to its end. *)
Lemma scan_zones_unconfirmed (zone_tol : Q) (zones : list Zone) :
  (forall z, In z zones -> in_tolerance zone_tol z = true ->
     chart_confirms holds df_dict direction = false /\
     forall n,
       reversal_signal.detect_reversal_signal (feed n) symbol direction
       = Ok false) ->
  forall calls,
    exists calls',
      scan_zones holds feed df_dict direction symbol curr_price zone_tol zones
                 calls
      = Ok (false, calls').
Proof.
  induction zones as [|[low high] zones IH]; intros Hz calls; simpl.
  - now exists calls.
  - assert (Hrest : forall z, In z zones -> in_tolerance zone_tol z = true ->
              chart_confirms holds df_dict direction = false /\
              forall n,
                reversal_signal.detect_reversal_signal (feed n) symbol direction
                = Ok false)
      by (intros z Hin; apply Hz; now right).
    destruct (Qleb (low - zone_tol) curr_price && Qleb curr_price (high + zone_tol))
      eqn:Etol; [|now apply IH].
    destruct (Hz (low, high) (or_introl eq_refl) Etol) as [Hc Hr].
    rewrite Hc, Hr. cbn [bind]. now apply IH.
Qed.

Lemma scan_timeframes_unconfirmed (zone_tol : Q)
    (finders : list (string * Finder)) :
  zone_tolerance df_dict symbol = Ok zone_tol ->
  no_confirmation ->
  (forall tf fn, In (tf, fn) finders -> In (tf, fn) (tf_finders calculate_atr)) ->
  (forall tf f, df_dict tf = Some f -> frame_aligned f) ->
  forall calls,
    scan_timeframes holds feed df_dict direction symbol curr_price zone_tol
                    finders calls
    = Ok ([], [], None).
Proof.
  intros Htol Hno Hsub Hal.
  induction finders as [|[tf fn] finders IH]; intros calls;
    simpl; [reflexivity|].
  assert (Hrest : forall tf' fn', In (tf', fn') finders ->
                                  In (tf', fn') (tf_finders calculate_atr))
    by (intros tf' fn' H; apply Hsub; now right).
  destruct (df_dict tf) as [f|] eqn:Ef; [|now apply IH].
  destruct (bars f) as [|b rest] eqn:Eb; simpl; [now apply IH|].
  destruct (tf_finders_total tf fn f) as [[dz sz] Efn].
  - apply Hsub. now left.
  - now apply (Hal tf).
  - rewrite Eb. discriminate.
  - rewrite Efn. cbn [bind].
    destruct (scan_zones_unconfirmed zone_tol
                (if (direction =? "BUY")%string then dz else sz)) with (calls := calls)
      as [calls' ->].
    + intros z Hz Hin.
      apply (Hno zone_tol tf fn f (dz, sz) z); auto.
      apply Hsub. now left.
    + cbn [bind]. now apply IH.
Qed.

Lemma zone_tolerance_total :
  (forall tf f, df_dict tf = Some f -> frame_aligned f) ->
  (forall f, df_dict "M15"%string = Some f -> bars f <> []) ->
  exists zone_tol, zone_tolerance df_dict symbol = Ok zone_tol.
Proof.
  intros Hal Hne. unfold zone_tolerance.
  destruct (df_dict "M15"%string) as [[m15 [[name values]|]]|] eqn:E;
    try (eexists; reflexivity).
  destruct (name =? "atr_14")%string; [|eexists; reflexivity].
  destruct (iat_last_total values) as [x ->].
  - specialize (Hal _ _ E). specialize (Hne _ eq_refl).
    unfold frame_aligned in Hal. simpl in Hal, Hne.
    intros ->. destruct m15; simpl in Hal; congruence.
  - cbn [bind]. eexists. reflexivity.
Qed.

(** C10: when no timeframe produces a confirmation (for every zone of the
    required side that the price touches, the chart-pattern check does not
    confirm the direction and no call of the reversal consensus does),
    [find_zones_fallback] returns empty demand and supply lists and no
    timeframe, whatever zones the timeframes hold; the zone gate of the
    orchestrator then rejects a BUY as well as a SELL.  (The frames are
    those the data stage hands over: an ATR column has a value for each bar,
    and the M15 frame has a bar.) *)
Theorem fallback_unconfirmed_is_empty :
  (forall tf f, df_dict tf = Some f -> frame_aligned f) ->
  (forall f, df_dict "M15"%string = Some f -> bars f <> []) ->
  no_confirmation ->
  find_zones_fallback calculate_atr holds feed df_dict direction curr_price
                      symbol
  = Ok ([], [], None) /\
  forall zones_d zones_s tf_used,
    find_zones_fallback calculate_atr holds feed df_dict direction curr_price
                        symbol
    = Ok (zones_d, zones_s, tf_used) ->
    direction = "BUY"%string \/ direction = "SELL"%string ->
    main.zone_gate_rejects direction zones_d zones_s = true.
Proof.
  intros Hal Hne Hno.
  assert (Hres : find_zones_fallback calculate_atr holds feed df_dict direction
                                     curr_price symbol = Ok ([], [], None)).
  { unfold find_zones_fallback.
    destruct (zone_tolerance_total Hal Hne) as [zone_tol Htol].
    rewrite Htol. cbn [bind].
    now apply scan_timeframes_unconfirmed. }
  split; [exact Hres|].
  intros zones_d zones_s tf_used H Hdir. rewrite Hres in H.
  inversion H; subst. destruct Hdir as [-> | ->]; reflexivity.
Qed.

End FallbackUnconfirmed.

(** A scan with zones on hand and nothing to confirm them: the only frame
    is the rise and fall on H1, the price 10 lies inside its supply zone
    [(0, 24)], no chart detector holds and the market feed has no candles
    for the reversal consensus. *)
Definition unit_atr (df : DataFrame) : list Q := map (fun _ => 1) df.

Definition no_detector (_ : pattern_detector.Detector) (_ : DataFrame) : bool :=
  false.

Definition silent_feed : nat -> reversal_signal.Fetcher :=
  fun _ _ _ _ => None.

Definition h1_only : supply_demand.FrameDict :=
  fun tf => if (tf =? "H1")%string
            then Some (supply_demand.mkFrame rise_and_fall None)
            else None.

Lemma fallback_unconfirmed_is_empty_witness :
  supply_demand.find_h1_zones unit_atr (supply_demand.mkFrame rise_and_fall None)
    = Ok ([ (0, 42) ], [ (0, 24); (4, 42) ]) /\
  supply_demand.find_zones_fallback unit_atr no_detector silent_feed h1_only
                                    "SELL" 10 "EURUSD"
    = Ok ([], [], None).
Proof.
  split; [vm_compute; reflexivity|].
  apply (fallback_unconfirmed_is_empty unit_atr no_detector silent_feed
           (fun df => length_map _ df) h1_only "SELL" "EURUSD" 10).
  - intros tf f. unfold h1_only.
    destruct (tf =? "H1")%string; intros H; inversion H; exact I.
  - intros f H. vm_compute in H. discriminate.
  - intros zone_tol tf fn f found z _ _ _ _ _ _.
    split; [reflexivity | intros n; vm_compute; reflexivity].
Defined.

(** ** The confidence score *)

Section Score.

Import candle_patterns main.










(** The same eight additions in binary64 arithmetic, the way the
    interpreter carries them out on the float literals of the weight table:
    rounding does not bring the total back to 1. *)
#[warnings="-inexact-float"]
Definition float_score_all_agree : float :=
  (0 + 0.2 + 0.2 + 0.1 + 0.1 + 0.15 + 0.1 + 0.15 + 0.1)%float.

Remark float_score_above_one :
  PrimFloat.ltb 1%float float_score_all_agree = true.
Proof. vm_compute. reflexivity. Qed.

End Score.

(** ** The direction vote *)

Section DirectionVote.

Import main.

(** What the three indicator signals return: nothing, BUY or SELL. *)
Definition signal_value (x : option string) : Prop :=
  x = None \/ x = Some "BUY"%string \/ x = Some "SELL"%string.

Lemma max_from_in (key : string -> nat) (rest : list string) :
  forall best, In (max_from key best rest) (best :: rest).
Proof.
  induction rest as [|x t IH]; intros best; simpl; [now left|].
  destruct (key best <? key x)%nat.
  - right. apply IH.
  - destruct (IH best) as [H|H]; [now left | now right; right].
Qed.

Lemma max_from_ge (key : string -> nat) (rest : list string) :
  forall best x, In x (best :: rest) ->
                 (key x <= key (max_from key best rest))%nat.
Proof.
  induction rest as [|y t IH]; intros best x Hx; simpl.
  - destruct Hx as [<-|[]]. lia.
  - destruct (key best <? key y)%nat eqn:E.
    + apply Nat.ltb_lt in E.
      destruct Hx as [<-|[<-|Hx]].
      * pose proof (IH y y (or_introl eq_refl)). lia.
      * apply IH. now left.
      * apply IH. now right.
    + apply Nat.ltb_ge in E.
      destruct Hx as [<-|[<-|Hx]].
      * apply IH. now left.
      * pose proof (IH best best (or_introl eq_refl)). lia.
      * apply IH. now right.
Qed.

(** [max] keeps the first element when no later one has a larger key. *)
Lemma max_from_first (key : string -> nat) (rest : list string) (best : string) :
  (forall x, In x rest -> (key x <= key best)%nat) ->
  max_from key best rest = best.
Proof.
  induction rest as [|x t IH]; intros H; simpl; [reflexivity|].
  replace (key best <? key x)%nat with false.
  - apply IH. intros y Hy. apply H. now right.
  - symmetry. apply Nat.ltb_ge. apply H. now left.
Qed.

Lemma directions_of_values (m b r : option string) :
  signal_value m -> signal_value b -> signal_value r ->
  forall d, In d (directions_of m b r) -> d = "BUY"%string \/ d = "SELL"%string.
Proof.
  intros Hm Hb Hr d.
  destruct Hm as [ -> | [ -> | -> ] ], Hb as [ -> | [ -> | -> ] ],
    Hr as [ -> | [ -> | -> ] ];
    simpl; intuition.
Qed.

Variable set_iter : list string -> list string.
Hypothesis set_iter_order : set_order set_iter.

(** With a vote cast, the set has a first member and [max] starts from
    it. *)
Lemma direction_vote_some (m b r : option string) :
  directions_of m b r <> [] ->
  exists x t,
    set_iter (directions_of m b r) = x :: t /\
    direction_vote set_iter m b r
    = Some (max_from (count (directions_of m b r)) x t).
Proof.
  intros Hne. unfold direction_vote. cbv zeta.
  set (directions := directions_of m b r) in *. clearbody directions.
  destruct (set_iter_order directions) as [_ Hmem].
  destruct directions as [|d0 rest]; [congruence|].
  destruct (set_iter (d0 :: rest)) as [|x t] eqn:Es.
  - exfalso. apply (proj2 (Hmem d0)). now left.
  - now exists x, t.
Qed.

(** When the members of the set all have as many votes, [max] returns the
    first of them. *)
Lemma direction_vote_tie (m b r : option string) :
  signal_value m -> signal_value b -> signal_value r ->
  directions_of m b r <> [] ->
  count (directions_of m b r) "BUY" = count (directions_of m b r) "SELL" ->
  direction_vote set_iter m b r = hd_error (set_iter (directions_of m b r)).
Proof.
  intros Hm Hb Hr Hne Htie.
  pose proof (directions_of_values m b r Hm Hb Hr) as Hvals.
  destruct (direction_vote_some m b r Hne) as [x [t [Es ->]]].
  destruct (set_iter_order (directions_of m b r)) as [_ Hmem].
  rewrite Es in *. simpl. f_equal. apply max_from_first.
  intros y Hy.
  assert (Hy_dir : In y (directions_of m b r)) by (apply Hmem; now right).
  assert (Hx_dir : In x (directions_of m b r)) by (apply Hmem; now left).
  destruct (Hvals y Hy_dir) as [-> | ->], (Hvals x Hx_dir) as [-> | ->]; lia.
Qed.

(** C5, as the code has it: the vote is a function of the three sub-signal
    values and of the order in which the set of the votes yields its
    members.  It returns one of the votes; the direction with more votes
    when there is one; and on a tie between BUY and SELL the member that the
    set yields first, which is not tied to the evaluation sequence. *)
Theorem direction_vote_majority (m b r : option string) :
  signal_value m -> signal_value b -> signal_value r ->
  directions_of m b r <> [] ->
  let directions := directions_of m b r in
  exists d,
    direction_vote set_iter m b r = Some d /\
    In d directions /\
    (forall d', In d' directions -> (count directions d' <= count directions d)%nat) /\
    ((count directions "SELL" < count directions "BUY")%nat -> d = "BUY"%string) /\
    ((count directions "BUY" < count directions "SELL")%nat -> d = "SELL"%string) /\
    (count directions "BUY" = count directions "SELL" ->
     hd_error (set_iter directions) = Some d).
Proof.
  intros Hm Hb Hr Hne. cbv zeta.
  pose proof (directions_of_values m b r Hm Hb Hr) as Hvals.
  pose proof (direction_vote_tie m b r Hm Hb Hr Hne) as Htie.
  destruct (direction_vote_some m b r Hne) as [x [t [Es Ev]]].
  rewrite Ev in *.
  set (directions := directions_of m b r) in *. clearbody directions.
  destruct (set_iter_order directions) as [_ Hmem].
  set (d := max_from (count directions) x t) in *.
  assert (Hd_dir : In d directions)
    by (apply Hmem; rewrite Es; apply max_from_in).
  assert (Hd_max : forall d', In d' directions ->
                              (count directions d' <= count directions d)%nat).
  { intros d' Hd'. apply max_from_ge. rewrite <- Es. now apply Hmem. }
  exists d. repeat split; auto.
  - intros Hlt. destruct (Hvals d Hd_dir) as [Hd|Hd]; [exact Hd|].
    assert (Hbuy : In "BUY"%string directions).
    { apply (count_occ_In string_dec). unfold count in Hlt. lia. }
    specialize (Hd_max _ Hbuy). rewrite Hd in Hd_max. lia.
  - intros Hlt. destruct (Hvals d Hd_dir) as [Hd|Hd]; [|exact Hd].
    assert (Hsell : In "SELL"%string directions).
    { apply (count_occ_In string_dec). unfold count in Hlt. lia. }
    specialize (Hd_max _ Hsell). rewrite Hd in Hd_max. lia.
  - intros Heq. symmetry. now apply Htie.
Qed.

End DirectionVote.

(** The tie-break the specification names: on a tie the vote is the first
    sub-signal of the evaluation sequence, under every order a set may
    take. *)
Definition first_seen_tie_break : Prop :=
  forall set_iter, main.set_order set_iter ->
  forall m b r,
    signal_value m -> signal_value b -> signal_value r ->
    let directions := main.directions_of m b r in
    directions <> [] ->
    main.count directions "BUY" = main.count directions "SELL" ->
    main.direction_vote set_iter m b r = hd_error directions.

(** A set layout in which the member BUY comes first, whenever it was
    inserted. *)
Definition buy_first (l : list string) : list string :=
  (if in_dec string_dec "BUY"%string l then ["BUY"%string] else [])
  ++ nodup string_dec (filter (fun s => negb (s =? "BUY")%string) l).

Lemma buy_first_order : main.set_order buy_first.
Proof.
  intros l. unfold buy_first. split.
  - assert (Hrest : NoDup (nodup string_dec
                             (filter (fun s => negb (s =? "BUY")%string) l)))
      by apply NoDup_nodup.
    destruct (in_dec string_dec "BUY"%string l); [|exact Hrest].
    simpl. constructor; [|exact Hrest].
    rewrite nodup_In, filter_In. intros [_ H]. discriminate.
  - intros x. rewrite in_app_iff, nodup_In, filter_In. split.
    + intros [H|[H _]]; [|exact H].
      destruct (in_dec string_dec "BUY"%string l); simpl in H; [|contradiction].
      destruct H as [<-|[]]. assumption.
    + intros H. destruct (String.eqb_spec x "BUY") as [->|Hx].
      * left. destruct (in_dec string_dec "BUY"%string l); [now left|contradiction].
      * right. split; [exact H|reflexivity].
Qed.

(** C5 as stated fails: with momentum on SELL, the band signal on BUY and no
    oscillator signal the votes tie, SELL is the first sub-signal, and under
    a set layout that yields BUY first the vote is BUY. *)
Lemma vote_tie_not_first_seen :
  main.direction_vote buy_first (Some "SELL"%string) (Some "BUY"%string) None
    = Some "BUY"%string /\
  ~ first_seen_tie_break.
Proof.
  split; [vm_compute; reflexivity|].
  intros H.
  specialize (H buy_first buy_first_order
                (Some "SELL"%string) (Some "BUY"%string) None).
  assert (Hv : main.direction_vote buy_first (Some "SELL"%string)
                 (Some "BUY"%string) None = Some "SELL"%string).
  { apply H; unfold signal_value; auto; try discriminate. }
  vm_compute in Hv. discriminate.
Qed.

(** A set whose layout does not depend on the insertion order (distinct
    hash slots) breaks the tie the same way for [BUY, SELL] and for
    [SELL, BUY]: the first-seen rule fails on one of the two. *)
Lemma vote_tie_ignores_sequence (set_iter : list string -> list string) :
  main.set_order set_iter ->
  set_iter ["BUY"; "SELL"]%string = set_iter ["SELL"; "BUY"]%string ->
  main.direction_vote set_iter (Some "BUY"%string) (Some "SELL"%string) None
  = main.direction_vote set_iter (Some "SELL"%string) (Some "BUY"%string) None.
Proof.
  intros Hord Hsame.
  rewrite !(direction_vote_tie set_iter Hord);
    unfold signal_value; auto; try discriminate.
  exact (f_equal (@hd_error string) Hsame).
Qed.

Lemma direction_vote_majority_witness :
  exists d,
    main.direction_vote buy_first (Some "SELL"%string) (Some "BUY"%string) None
      = Some d /\
    hd_error (buy_first ["SELL"; "BUY"]%string) = Some d.
Proof.
  destruct (direction_vote_majority buy_first buy_first_order
              (Some "SELL"%string) (Some "BUY"%string) None)
    as [d [E [_ [_ [_ [_ T]]]]]].
  - right. right. reflexivity.
  - right. left. reflexivity.
  - left. reflexivity.
  - simpl. discriminate.
  - exists d. split; [exact E | exact (T eq_refl)].
Defined.

(** * Further properties of the candlestick predicates *)

Section CandleFacts.

Import candle_patterns.

(** A read from the end of a frame does not see what comes before the bars
    it counts back over. *)
Lemma iloc_app_from_end (pre w : DataFrame) (i : Z) :
  (- Z.of_nat (length w) <= i < 0)%Z ->
  iloc (pre ++ w) i = iloc w i.
Proof.
  intros Hi. unfold iloc. rewrite length_app.
  replace (i <? 0)%Z with true by (symmetry; apply Z.ltb_lt; lia).
  replace ((0 <=? Z.of_nat (length pre + length w) + i)%Z
           && (Z.of_nat (length pre + length w) + i
               <? Z.of_nat (length pre + length w))%Z) with true
    by (symmetry; apply andb_true_iff; split;
        [apply Z.leb_le | apply Z.ltb_lt]; lia).
  replace ((0 <=? Z.of_nat (length w) + i)%Z
           && (Z.of_nat (length w) + i <? Z.of_nat (length w))%Z) with true
    by (symmetry; apply andb_true_iff; split;
        [apply Z.leb_le | apply Z.ltb_lt]; lia).
  rewrite nth_error_app2 by lia.
  replace (Z.to_nat (Z.of_nat (length pre + length w) + i) - length pre)%nat
    with (Z.to_nat (Z.of_nat (length w) + i)) by lia.
  reflexivity.
Qed.

(** The guard and the reads of a predicate on a series with earlier bars in
    front. *)
Ltac drop_earlier_bars E :=
  match goal with
  | |- ?f (?pre ++ ?w) = ?f ?w => unfold f
  end;
  rewrite length_app;
  match goal with
  | |- (if (?a <? ?k)%nat then _ else _) = (if (?b <? ?k)%nat then _ else _) =>
      replace (a <? k)%nat with false by (symmetry; apply Nat.ltb_ge; lia);
      replace (b <? k)%nat with false by (symmetry; apply Nat.ltb_ge; lia)
  end;
  rewrite !iloc_app_from_end by lia;
  reflexivity.

(** A candlestick predicate looks at the last one, two or three bars only:
    bars in front of them change nothing. *)
Theorem candle_predicate_last_bars (p : Pattern) (pre w : DataFrame) :
  (min_bars p <= length w)%nat ->
  predicate p (pre ++ w) = predicate p w.
Proof.
  intros E. destruct p; simpl in E |- *; drop_earlier_bars E.
Qed.

Lemma candle_predicate_last_bars_witness :
  predicate BullishEngulfing
    ([mkBar 1 5 0 4; mkBar 4 9 3 7]
       ++ [mkBar 1.10 1.10 1.08 1.08; mkBar 1.079 1.11 1.079 1.11])
  = predicate BullishEngulfing
      [mkBar 1.10 1.10 1.08 1.08; mkBar 1.079 1.11 1.079 1.11].
Proof.
  apply candle_predicate_last_bars. simpl. lia.
Defined.

(** What two results [Ok true] on the same series give: the comparisons of
    both predicates, on the same bars. *)
Ltac split_conjuncts H :=
  repeat match type of H with
  | _ && _ = true =>
      let H' := fresh "Hc" in
      apply andb_true_iff in H; destruct H as [H H']
  end.

Ltac open_patterns H1 H2 :=
  match type of H1 with
  | ?f ?df = Ok true => unfold f in H1
  end;
  match type of H2 with
  | ?g ?df = Ok true => unfold g in H2
  end;
  repeat first
    [ match type of H1 with
      | (if ?c then _ else _) = _ => destruct c; [discriminate|]
      end
    | match type of H1 with
      | bind (iloc ?df ?i) _ = _ =>
          let b := fresh "bar" in
          destruct (iloc df i) as [b|]; [|discriminate]
      end
    | progress cbn [bind] in H1, H2 ];
  injection H1 as H1; injection H2 as H2;
  split_conjuncts H1; split_conjuncts H2.

Lemma Qgtb_lt (x y : Q) : Qgtb x y = true <-> y < x.
Proof. unfold Qgtb. apply Qltb_lt. Qed.

(** The bullish and the bearish form of a two- or three-bar pattern never
    hold on the same series: engulfing, harami, tweezer and star each ask
    the bars before the last for opposite body directions. *)
Theorem opposite_patterns_exclusive (df : DataFrame) :
  ~ (is_bullish_engulfing df = Ok true /\ is_bearish_engulfing df = Ok true) /\
  ~ (is_bullish_harami df = Ok true /\ is_bearish_harami df = Ok true) /\
  ~ (is_tweezer_bottom df = Ok true /\ is_tweezer_top df = Ok true) /\
  ~ (is_morning_star df = Ok true /\ is_evening_star df = Ok true).
Proof.
  repeat split; intros [H1 H2]; open_patterns H1 H2;
    repeat match goal with
    | H : Qltb _ _ = true |- _ => apply Qltb_lt in H
    | H : Qgtb _ _ = true |- _ => apply Qgtb_lt in H
    end; lra.
Qed.

Lemma py_max_swap (a b : Q) : py_max a b == py_max b a.
Proof.
  unfold py_max, Qgtb.
  destruct (Qltb a b) eqn:E1, (Qltb b a) eqn:E2; try reflexivity.
  - apply Qltb_lt in E1, E2. lra.
  - apply Qltb_ge in E1, E2. lra.
Qed.

Lemma py_min_swap (a b : Q) : py_min a b == py_min b a.
Proof.
  unfold py_min.
  destruct (Qltb b a) eqn:E1, (Qltb a b) eqn:E2; try reflexivity.
  - apply Qltb_lt in E1, E2. lra.
  - apply Qltb_ge in E1, E2. lra.
Qed.

Lemma Ok_inj {A : Type} (a b : A) : Ok a = Ok b -> a = b.
Proof. intros H. congruence. Qed.

(** A gravestone doji is a doji and a shooting star; a dragonfly doji is a
    doji and a hammer. *)
Theorem doji_variants_imply (df : DataFrame) :
  (is_gravestone_doji df = Ok true ->
   is_doji df = Ok true /\ is_shooting_star df = Ok true) /\
  (is_dragonfly_doji df = Ok true ->
   is_doji df = Ok true /\ is_hammer df = Ok true).
Proof.
  split; intros H.
  - unfold is_gravestone_doji in H. unfold is_doji, is_shooting_star.
    destruct (length df <? 1)%nat; [discriminate|].
    destruct (iloc df (-1)) as [c|]; [cbn [bind] in H |- *|discriminate].
    cbv zeta in H |- *. apply Ok_inj in H. apply andb_true_iff in H. destruct H as [Hb Hw].
    rewrite (Qabs_Qminus (close c) (open c)).
    apply Qgtb_lt in Hw. split; f_equal; [exact Hb|].
    apply Qgtb_lt. pose proof (py_max_swap (open c) (close c)). lra.
  - unfold is_dragonfly_doji in H. unfold is_doji, is_hammer.
    destruct (length df <? 1)%nat; [discriminate|].
    destruct (iloc df (-1)) as [c|]; [cbn [bind] in H |- *|discriminate].
    cbv zeta in H |- *. apply Ok_inj in H. apply andb_true_iff in H. destruct H as [Hb Hw].
    rewrite (Qabs_Qminus (close c) (open c)).
    apply Qgtb_lt in Hw. split; f_equal; [exact Hb|].
    apply Qgtb_lt. pose proof (py_min_swap (open c) (close c)). lra.
Qed.

End CandleFacts.

(** * Further properties of the chart pattern selection *)

Section DetectPatternFacts.

Import pattern_detector.

Variable holds : Detector -> DataFrame -> bool.

(** A match carries the direction and the name of a table entry whose
    detector holds. *)
Definition from_holding_entry (table : list (Detector * option string * string))
    (df : DataFrame) (m : PatternMatch) : Prop :=
  exists func, In (func, direction m, pattern m) table /\ holds func df = true.

Lemma loop_returns_holding_entry table ps df expected :
  (forall e, In e ps -> In e table) ->
  forall fallback m,
    (forall m', fallback = Some m' -> from_holding_entry table df m') ->
    detect_pattern_loop holds ps df expected fallback = Some m ->
    from_holding_entry table df m.
Proof.
  induction ps as [|[[f0 d0] n0] ps IH]; intros Hsub fallback m Hfb H;
    simpl in H.
  - now apply Hfb.
  - assert (Hrest : forall e, In e ps -> In e table)
      by (intros e He; apply Hsub; now right).
    assert (Hhead : holds f0 df = true ->
                    from_holding_entry table df (mkMatch d0 n0)).
    { intros E0. exists f0. split; [apply Hsub; now left|exact E0]. }
    destruct (holds f0 df) eqn:E0.
    + destruct (truthy expected && opt_eqb d0 expected).
      * inversion H; subst. now apply Hhead.
      * apply (IH Hrest _ m) in H; [exact H|].
        intros m' Hm'. destruct fallback as [fb|].
        -- apply Hfb. exact Hm'.
        -- inversion Hm'; subst. now apply Hhead.
    + now apply (IH Hrest fallback m).
Qed.

Lemma loop_none ps df expected :
  forall fallback,
    detect_pattern_loop holds ps df expected fallback = None <->
    fallback = None /\
    forall func d name, In (func, d, name) ps -> holds func df = false.
Proof.
  induction ps as [|[[f0 d0] n0] ps IH]; intros fallback; simpl.
  - split; [intros ->; split; [reflexivity|intros ? ? ? []] | now intros [-> _]].
  - destruct (holds f0 df) eqn:E0.
    + destruct (truthy expected && opt_eqb d0 expected).
      * split; [discriminate|].
        intros [_ H]. rewrite (H f0 d0 n0) in E0 by (now left). discriminate.
      * rewrite IH. split.
        -- intros [Hfb _]. destruct fallback; discriminate.
        -- intros [_ H]. rewrite (H f0 d0 n0) in E0 by (now left).
           discriminate.
    + rewrite IH. split; intros [Hfb H]; (split; [exact Hfb|]).
      * intros func d name [Hin|Hin]; [inversion Hin; subst; exact E0|].
        now apply (H func d name).
      * intros func d name Hin. apply (H func d name). now right.
Qed.

(** [detect_pattern] reports only what a detector found: a match is the
    direction and name of a table entry whose detector holds on the window,
    and the result is none exactly when no detector holds. *)
Theorem detect_pattern_sound (df : DataFrame) (expected : option string) :
  (forall m, detect_pattern holds df expected = Some m ->
             from_holding_entry patterns df m) /\
  (detect_pattern holds df expected = None <->
   forall func d name, In (func, d, name) patterns -> holds func df = false).
Proof.
  unfold detect_pattern. split.
  - intros m H.
    apply (loop_returns_holding_entry patterns patterns df expected
             (fun e He => He) None m); [discriminate|exact H].
  - rewrite loop_none. split; [now intros [_ H]|now split].
Qed.

Lemma loop_other_direction ps df d :
  d <> ""%string ->
  forall fallback m,
    detect_pattern_loop holds ps df (Some d) fallback = Some m ->
    direction m <> Some d ->
    forall func name, In (func, Some d, name) ps -> holds func df = false.
Proof.
  intros Hd. induction ps as [|[[f0 d0] n0] ps IH];
    intros fallback m H Hm func name Hin; cbn [detect_pattern_loop] in H;
    [destruct Hin|].
  rewrite (truthy_some d Hd) in H. cbn [andb] in H.
  destruct (holds f0 df) eqn:E0.
  - destruct (opt_eqb d0 (Some d)) eqn:Eq.
    + apply opt_eqb_eq in Eq. inversion H; subst. simpl in Hm. congruence.
    + destruct Hin as [Hin|Hin].
      * inversion Hin; subst. simpl in Eq. rewrite String.eqb_refl in Eq.
        discriminate.
      * now apply (IH _ m H Hm func name).
  - destruct Hin as [Hin|Hin].
    + inversion Hin; subst. exact E0.
    + now apply (IH fallback m H Hm func name).
Qed.

(** The conflict test of the orchestrator reads the result the right way:
    when a direction is expected and the match returned has another
    direction (or none), no detector of the expected direction holds on the
    window. *)
Theorem detect_pattern_conflict (df : DataFrame) (d : string) (m : PatternMatch) :
  d <> ""%string ->
  detect_pattern holds df (Some d) = Some m ->
  direction m <> Some d ->
  forall func name, In (func, Some d, name) patterns -> holds func df = false.
Proof.
  intros Hd H Hm func name Hin. unfold detect_pattern in H.
  eapply loop_other_direction; eauto.
Qed.

End DetectPatternFacts.

(** A window on which the double bottom alone holds. *)
Definition holds_double_bottom (f : pattern_detector.Detector)
    (_ : DataFrame) : bool :=
  match f with
  | pattern_detector.detect_double_bottom => true
  | _ => false
  end.

Lemma detect_pattern_sound_witness :
  from_holding_entry holds_double_bottom pattern_detector.patterns []
    (pattern_detector.mkMatch (Some "BUY"%string) "Double Bottom").
Proof.
  apply (proj1 (detect_pattern_sound holds_double_bottom []
                  (Some "SELL"%string))).
  reflexivity.
Defined.

Lemma detect_pattern_conflict_witness :
  pattern_detector.detect_pattern holds_double_bottom [] (Some "SELL"%string)
  = Some (pattern_detector.mkMatch (Some "BUY"%string) "Double Bottom") /\
  holds_double_bottom pattern_detector.detect_head_and_shoulders [] = false.
Proof.
  split.
  - reflexivity.
  - apply (detect_pattern_conflict holds_double_bottom [] "SELL"
             (pattern_detector.mkMatch (Some "BUY"%string) "Double Bottom"))
      with (name := "Head and Shoulders"%string).
    + discriminate.
    + reflexivity.
    + simpl. discriminate.
    + simpl. tauto.
Defined.

(** * support_resistance.py: the distance, proximity and breakout helpers *)

From Stdlib Require Import Sorted.

Module support_resistance_atr.

Import support_resistance.

(** [None] when there is no level, else the least distance to one. *)
Definition nearest_sr_distance (price : Q)
    (support_levels resistance_levels : list Q) : option Q :=
  let levels := support_levels ++ resistance_levels in
  match levels with
  | [] => None
  | _ :: _ =>
      Some (reversal_signal.list_min
              (map (fun lvl => Qabs (price - lvl)) levels))
  end.

(** [atr] is [None] for a missing ATR. *)
Definition is_near_sr_atr (price : Q) (support_levels resistance_levels : list Q)
    (atr : option Q) (k fallback_abs : Q) : bool :=
  match atr with
  | None =>
      is_near_support_or_resistance price support_levels resistance_levels
                                    fallback_abs
  | Some a =>
      if Qleb a 0 then
        is_near_support_or_resistance price support_levels resistance_levels
                                      fallback_abs
      else
        let thr := k * a in
        existsb (fun lvl => Qleb (Qabs (price - lvl)) thr)
                (support_levels ++ resistance_levels)
  end.

(** [direction] is [None] for a missing direction; it is upper-cased
    before it is compared. *)
Definition is_breakout_atr (price : Q) (support_levels resistance_levels : list Q)
    (atr : option Q) (direction : option string) (k fallback_eps : Q) : bool :=
  let direction := pystr.upper (match direction with
                                | Some d => d
                                | None => ""%string
                                end) in
  if negb ((direction =? "BUY")%string || (direction =? "SELL")%string)
  then false
  else
    let no_atr := match atr with
                  | None => true
                  | Some a => Qleb a 0
                  end in
    if no_atr then
      if (direction =? "BUY")%string then
        reversal_signal.nonempty resistance_levels &&
        Qgtb price (reversal_signal.list_max resistance_levels + fallback_eps)
      else
        reversal_signal.nonempty support_levels &&
        Qltb price (reversal_signal.list_min support_levels - fallback_eps)
    else
      let a := match atr with Some a => a | None => 0 end in
      if (direction =? "BUY")%string then
        if negb (reversal_signal.nonempty resistance_levels) then false
        else Qgtb price (reversal_signal.list_max resistance_levels + k * a)
      else
        if negb (reversal_signal.nonempty support_levels) then false
        else Qltb price (reversal_signal.list_min support_levels - k * a).

End support_resistance_atr.

(** * Properties of the level finder and its helpers *)

Section LevelFacts.

Import support_resistance support_resistance_atr.

(** Insertion into a sorted list keeps it sorted, for a comparison that
    decides a total relation. *)
Lemma insert_by_sorted (R : Q -> Q -> Prop) (leb : Q -> Q -> bool) :
  (forall a b, leb a b = true -> R a b) ->
  (forall a b, leb a b = false -> R b a) ->
  forall x l, Sorted R l -> Sorted R (insert_by leb x l).
Proof.
  intros Ht Hf x l Hl. induction Hl as [|y l Hl IH Hhd]; simpl.
  - repeat constructor.
  - destruct (leb x y) eqn:E.
    + constructor; [now constructor|]. constructor. now apply Ht.
    + constructor; [exact IH|].
      destruct l as [|z l]; simpl.
      * constructor. now apply Hf.
      * destruct (leb x z); constructor.
        -- now apply Hf.
        -- now inversion Hhd.
Qed.

Lemma sorted_by_sorted (R : Q -> Q -> Prop) (leb : Q -> Q -> bool) :
  (forall a b, leb a b = true -> R a b) ->
  (forall a b, leb a b = false -> R b a) ->
  forall l, Sorted R (fold_right (insert_by leb) [] l).
Proof.
  intros Ht Hf. induction l as [|x l IH]; simpl; [constructor|].
  now apply insert_by_sorted.
Qed.

Lemma firstn_sorted (R : Q -> Q -> Prop) (n : nat) (l : list Q) :
  Sorted R l -> Sorted R (firstn n l).
Proof.
  revert l. induction n as [|n IH]; intros l Hl; simpl; [constructor|].
  destruct Hl as [|x l Hl Hhd]; [constructor|].
  constructor; [now apply IH|].
  destruct Hhd as [|y l Hxy]; destruct n; simpl; constructor. exact Hxy.
Qed.

(** Supports lie below the last close and resistances above it. *)
Lemma find_nearest_levels_sides (df : DataFrame)
    (window lookback max_levels : nat) (supports resistances : list Q)
    (last : Bar) :
  find_nearest_levels df window lookback max_levels
    = Ok (supports, resistances) ->
  iloc df (-1) = Ok last ->
  Forall (fun s => s < close last) supports /\
  Forall (fun r => close last < r) resistances.
Proof.
  unfold find_nearest_levels. intros H Hlast. rewrite Hlast in H.
  cbn [bind] in H.
  destruct (scan_bars _ _ _ _ _) as [[s r]|]; [|discriminate].
  cbn [bind] in H. apply Ok_inj in H. inversion H; subst; clear H.
  split; apply Forall_forall; intros x Hx;
    apply in_firstn, in_sorted_by, filter_In in Hx.
  - now apply Qltb_lt.
  - now apply Qgtb_lt.
Qed.

(** The level set that [find_nearest_levels] returns: supports strictly
    below the last close and resistances strictly above it, each list with
    the level nearest to the close first and at most [max_levels] long. *)
Theorem find_nearest_levels_level_set (df : DataFrame)
    (window lookback max_levels : nat) (supports resistances : list Q)
    (last : Bar) :
  find_nearest_levels df window lookback max_levels
    = Ok (supports, resistances) ->
  iloc df (-1) = Ok last ->
  Forall (fun s => s < close last) supports /\
  Forall (fun r => close last < r) resistances /\
  Sorted (fun a b => b <= a) supports /\
  Sorted Qle resistances /\
  (length supports <= max_levels)%nat /\
  (length resistances <= max_levels)%nat.
Proof.
  intros H Hlast.
  destruct (find_nearest_levels_sides _ _ _ _ _ _ _ H Hlast) as [Hs Hr].
  split; [exact Hs|]. split; [exact Hr|].
  unfold find_nearest_levels in H. rewrite Hlast in H. cbn [bind] in H.
  destruct (scan_bars _ _ _ _ _) as [[s r]|]; [|discriminate].
  cbn [bind] in H. apply Ok_inj in H. inversion H; subst; clear H.
  repeat split.
  - apply firstn_sorted. apply sorted_by_sorted.
    + intros a b E. now apply Qleb_le in E.
    + intros a b E. unfold Qgeb in E.
      apply Qlt_le_weak. apply Qnot_le_lt. intros Hle.
      apply Qle_bool_iff in Hle. congruence.
  - apply firstn_sorted. apply sorted_by_sorted.
    + intros a b E. now apply Qleb_le in E.
    + intros a b E. unfold Qleb in E.
      apply Qlt_le_weak. apply Qnot_le_lt. intros Hle.
      apply Qle_bool_iff in Hle. congruence.
  - apply firstn_le_length.
  - apply firstn_le_length.
Qed.

(** A price that is below every resistance does not clear the highest one
    by a margin that is not negative; likewise above every support. *)
Lemma never_above_resistances (price margin : Q) (resistances : list Q) :
  Forall (fun r => price < r) resistances -> 0 <= margin ->
  reversal_signal.nonempty resistances &&
  Qgtb price (reversal_signal.list_max resistances + margin) = false.
Proof.
  intros Hr Hm. destruct resistances as [|r0 rest]; [reflexivity|].
  cbn [reversal_signal.nonempty andb].
  destruct (Qgtb _ _) eqn:E; [|reflexivity]. apply Qgtb_lt in E.
  inversion Hr as [|? ? Hr0 _]; subst.
  pose proof (list_max_ge (r0 :: rest) r0 (or_introl eq_refl)). lra.
Qed.

Lemma never_below_supports (price margin : Q) (supports : list Q) :
  Forall (fun s => s < price) supports -> 0 <= margin ->
  reversal_signal.nonempty supports &&
  Qltb price (reversal_signal.list_min supports - margin) = false.
Proof.
  intros Hs Hm. destruct supports as [|s0 rest]; [reflexivity|].
  cbn [reversal_signal.nonempty andb].
  destruct (Qltb _ _) eqn:E; [|reflexivity]. apply Qltb_lt in E.
  inversion Hs as [|? ? Hs0 _]; subst.
  pose proof (list_min_le (s0 :: rest) s0 (or_introl eq_refl)). lra.
Qed.

(** A frame too short to hold a bar with [window] bars on each side, or a
    lookback that ends before the first such bar, gives no level; an empty
    frame has no last close and raises. *)
Theorem find_nearest_levels_short_frame (df : DataFrame)
    (window lookback max_levels : nat) :
  (df = [] ->
   find_nearest_levels df window lookback max_levels = Raise IndexError) /\
  (df <> [] ->
   (length df <= 2 * window)%nat \/ (lookback <= window)%nat ->
   find_nearest_levels df window lookback max_levels = Ok ([], [])).
Proof.
  split.
  - intros ->. reflexivity.
  - intros Hne Hshort. unfold find_nearest_levels.
    destruct (iloc_last_nonempty df Hne) as [last ->]. cbn [bind].
    replace (range window (Nat.min (Nat.max (length df - window) 0) lookback))
      with (@nil nat).
    + simpl. destruct max_levels; reflexivity.
    + unfold range.
      replace (Nat.min (Nat.max (length df - window) 0) lookback - window)%nat
        with 0%nat by lia.
      reflexivity.
Qed.

Lemma fold_py_min_in (t : list Q) :
  forall x, In (fold_left py_min t x) (x :: t).
Proof.
  induction t as [|y t IH]; intros x; cbn [fold_left]; [now left|].
  destruct (IH (py_min x y)) as [H|H]; [|now right; right].
  rewrite <- H. unfold py_min. destruct (Qltb y x); [right|]; now left.
Qed.

Lemma list_min_in (xs : list Q) :
  xs <> [] -> In (reversal_signal.list_min xs) xs.
Proof.
  destruct xs as [|x t]; [congruence|]. intros _. apply fold_py_min_in.
Qed.

(** The proximity test and the distance query agree: the price is near a
    level exactly when there is a level and the least distance to one is
    within the threshold. *)
Theorem near_iff_nearest_distance (price : Q) (supports resistances : list Q)
    (threshold : Q) :
  is_near_support_or_resistance price supports resistances threshold = true <->
  exists d, nearest_sr_distance price supports resistances = Some d /\
            d <= threshold.
Proof.
  unfold is_near_support_or_resistance, nearest_sr_distance.
  set (levels := supports ++ resistances). clearbody levels.
  rewrite existsb_exists. split.
  - intros [lvl [Hin Hle]]. apply Qleb_le in Hle.
    destruct levels as [|l0 rest] eqn:El; [destruct Hin|]. rewrite <- El in *.
    eexists. split; [reflexivity|].
    eapply Qle_trans; [|exact Hle].
    apply list_min_le.
    exact (in_map (fun l => Qabs (price - l)) levels lvl Hin).
  - intros [d [Hd Hle]].
    destruct levels as [|l0 rest] eqn:El; [discriminate|]. rewrite <- El in *.
    inversion Hd; subst d; clear Hd.
    assert (Hin : In (reversal_signal.list_min
                        (map (fun lvl => Qabs (price - lvl)) levels))
                     (map (fun lvl => Qabs (price - lvl)) levels)).
    { apply list_min_in. rewrite El. discriminate. }
    apply in_map_iff in Hin. destruct Hin as [lvl [Heq Hin]].
    exists lvl. split; [exact Hin|]. apply Qleb_le. now rewrite Heq.
Qed.

(** A wider ATR never loses proximity: with a multiplier that is not
    negative, a price that is near a level under a positive ATR is near it
    under every larger ATR. *)
Theorem near_atr_monotone (price : Q) (supports resistances : list Q)
    (a a' k fallback_abs : Q) :
  0 < a -> a <= a' -> 0 <= k ->
  is_near_sr_atr price supports resistances (Some a) k fallback_abs = true ->
  is_near_sr_atr price supports resistances (Some a') k fallback_abs = true.
Proof.
  intros Ha Hle Hk. unfold is_near_sr_atr.
  replace (Qleb a 0) with false
    by (symmetry; apply not_true_is_false; intros E; apply Qleb_le in E; lra).
  replace (Qleb a' 0) with false
    by (symmetry; apply not_true_is_false; intros E; apply Qleb_le in E; lra).
  cbv zeta. rewrite !existsb_exists.
  intros [lvl [Hin Hd]]. exists lvl. split; [exact Hin|].
  apply Qleb_le in Hd. apply Qleb_le.
  eapply Qle_trans; [exact Hd|]. nra.
Qed.

(** At the close the levels were taken from, no breakout is ever reported:
    the resistances all lie above that close and the supports below it, so
    the price cannot clear them by a margin that is not negative. *)
Theorem no_breakout_at_close (df : DataFrame)
    (window lookback max_levels : nat) (supports resistances : list Q)
    (last : Bar) (atr : option Q) (direction : option string)
    (k fallback_eps : Q) :
  find_nearest_levels df window lookback max_levels
    = Ok (supports, resistances) ->
  iloc df (-1) = Ok last ->
  0 <= k -> 0 <= fallback_eps ->
  is_breakout_atr (close last) supports resistances atr direction k
                  fallback_eps = false.
Proof.
  intros Hlv Hlast Hk Heps.
  destruct (find_nearest_levels_sides _ _ _ _ _ _ _ Hlv Hlast) as [Hs Hr].
  pose proof (fun margin => never_above_resistances (close last) margin
                              resistances Hr) as Hup.
  pose proof (fun margin => never_below_supports (close last) margin
                              supports Hs) as Hdown.
  unfold is_breakout_atr. cbv zeta.
  destruct (negb _); [reflexivity|].
  destruct atr as [a|].
  - destruct (Qleb a 0) eqn:Ea.
    + destruct (_ =? "BUY")%string; [now apply Hup | now apply Hdown].
    + assert (Hka : 0 <= k * a).
      { apply Qmult_le_0_compat; [exact Hk|].
        apply Qlt_le_weak. apply Qnot_le_lt. intros Hle.
        apply Qleb_le in Hle. congruence. }
      destruct (_ =? "BUY")%string.
      * specialize (Hup _ Hka). destruct (reversal_signal.nonempty resistances);
          [exact Hup|reflexivity].
      * specialize (Hdown _ Hka). destruct (reversal_signal.nonempty supports);
          [exact Hdown|reflexivity].
  - destruct (_ =? "BUY")%string; [now apply Hup | now apply Hdown].
Qed.

End LevelFacts.

(** A frame with one swing high and one swing low ahead of a flat stretch,
    scanned with a window of one bar. *)
Definition two_swing_frame : DataFrame :=
  [ mkBar 5 6 4 5; mkBar 5 9 4 5; mkBar 5 6 4 5; mkBar 5 6 1 5;
    mkBar 5 6 4 5; mkBar 5 6 4 5 ].

Lemma find_nearest_levels_level_set_witness :
  Forall (fun s => s < 5) [1] /\
  Forall (fun r => 5 < r) [9] /\
  Sorted (fun a b => b <= a) [1] /\
  Sorted Qle [9] /\
  (length [1] <= 3)%nat /\ (length [9] <= 3)%nat.
Proof.
  apply (find_nearest_levels_level_set two_swing_frame 1 10 3 [1] [9]
           (mkBar 5 6 4 5)); vm_compute; reflexivity.
Defined.

Lemma find_nearest_levels_origin_witness :
  levels_from_scanned old_spike_frame 20 500 ([], [3]).
Proof.
  apply (find_nearest_levels_origin old_spike_frame 20 500 3).
  vm_compute. reflexivity.
Defined.

Lemma find_nearest_levels_short_frame_witness :
  support_resistance.find_nearest_levels two_swing_frame 3 10 3 = Ok ([], []).
Proof.
  apply (proj2 (find_nearest_levels_short_frame two_swing_frame 3 10 3)).
  - discriminate.
  - left. simpl. lia.
Defined.

Lemma near_atr_monotone_witness :
  support_resistance_atr.is_near_sr_atr 5 [1] [9] (Some 20) 0.35 0.002 = true.
Proof.
  apply (near_atr_monotone 5 [1] [9] 12 20 0.35 0.002);
    try (vm_compute; reflexivity); vm_compute; discriminate.
Defined.

Lemma no_breakout_at_close_witness :
  support_resistance_atr.is_breakout_atr 5 [1] [9] (Some 1) (Some "buy"%string)
                                         0.20 0.000001
  = false.
Proof.
  apply (no_breakout_at_close two_swing_frame 1 10 3 [1] [9] (mkBar 5 6 4 5));
    try (vm_compute; reflexivity); vm_compute; discriminate.
Defined.

(** * Further properties of the reversal consensus *)

Section ReversalFacts.

Import candle_patterns support_resistance reversal_signal.

Lemma pip_size_positive (symbol : string) : 0 < _pip_size symbol.
Proof.
  unfold _pip_size.
  destruct (pystr.contains "XAU" _); [reflexivity|].
  destruct (pystr.contains "JPY" _); reflexivity.
Qed.

Lemma breakout_buffer_positive (symbol : string) (price : Q) :
  0 <= py_max (10 * _pip_size symbol) (0.001 * price).
Proof.
  pose proof (pip_size_positive symbol).
  destruct (py_max_spec (10 * _pip_size symbol) (0.001 * price)) as [H1 _].
  lra.
Qed.

(** The breakout exemption of the loop body never applies: the levels come
    from the frame whose last close is the current price, so the price has
    cleared neither the highest resistance nor the lowest support. *)
Lemma broke_level_false (df_full : DataFrame) (last : Bar)
    (supports resistances : list Q) (symbol direction : string) :
  iloc df_full (-1) = Ok last ->
  find_nearest_levels df_full 20 500 3 = Ok (supports, resistances) ->
  ((direction =? "BUY")%string && nonempty resistances &&
   Qgtb (close last)
        (list_max resistances
         + py_max (10 * _pip_size symbol) (0.001 * close last)))
  ||
  ((direction =? "SELL")%string && nonempty supports &&
   Qltb (close last)
        (list_min supports
         - py_max (10 * _pip_size symbol) (0.001 * close last)))
  = false.
Proof.
  intros Hlast Hlv.
  destruct (find_nearest_levels_sides _ _ _ _ _ _ _ Hlv Hlast) as [Hs Hr].
  pose proof (breakout_buffer_positive symbol (close last)) as Hb.
  rewrite <- !andb_assoc.
  rewrite (never_above_resistances _ _ _ Hr Hb).
  rewrite (never_below_supports _ _ _ Hs Hb).
  now rewrite !andb_false_r.
Qed.

(** A timeframe whose price is within twenty pips of a support or a
    resistance never confirms, for a BUY, a SELL or any other direction:
    the loop skips it. *)
Theorem near_level_never_confirms (fetch_candles_fn : Fetcher)
    (symbol direction label : string) (df_full : DataFrame) (last : Bar)
    (supports resistances : list Q) :
  fetch_candles_fn symbol label (dict_get TF_CANDLE_COUNTS label 300)
    = Some df_full ->
  iloc df_full (-1) = Ok last ->
  find_nearest_levels df_full 20 500 3 = Ok (supports, resistances) ->
  is_near_support_or_resistance (close last) supports resistances
                                (20 * _pip_size symbol) = true ->
  check_timeframe fetch_candles_fn symbol direction label <> Ok Confirmed /\
  check_timeframe fetch_candles_fn symbol direction label <> Ok Rejected.
Proof.
  intros Hfetch Hlast Hlv Hnear.
  unfold check_timeframe. rewrite Hfetch.
  destruct (dict_item TF_CANDLE_COUNTS label) as [need|];
    [cbn [bind]|split; discriminate].
  destruct (length df_full <? need)%nat; [split; discriminate|].
  rewrite Hlast. cbn [bind].
  destruct (length (tail need df_full) <? 5)%nat; [split; discriminate|].
  match goal with
  | |- (if ?c then _ else _) <> _ /\ _ => destruct c; [split; discriminate|]
  end.
  destruct (any_pattern patterns (tail need df_full)) as [pattern_match|];
    [cbn [bind]|split; discriminate].
  rewrite Hlv. cbn [bind].
  rewrite (broke_level_false df_full last supports resistances symbol direction
             Hlast Hlv).
  rewrite Hnear. split; discriminate.
Qed.

(** Once a candlestick pattern matches on the recent frame, the verdict of
    the timeframe is the same for every direction: the pattern list is not
    filtered by direction, so a bullish pattern confirms a SELL as it
    confirms a BUY. *)
Theorem pattern_verdict_ignores_direction (fetch_candles_fn : Fetcher)
    (symbol d1 d2 label : string) (df_full : DataFrame) (need : nat) :
  fetch_candles_fn symbol label (dict_get TF_CANDLE_COUNTS label 300)
    = Some df_full ->
  lookup TF_CANDLE_COUNTS label = Some need ->
  any_pattern patterns (tail need df_full) = Ok true ->
  check_timeframe fetch_candles_fn symbol d1 label
  = check_timeframe fetch_candles_fn symbol d2 label.
Proof.
  intros Hfetch Hneed Hpat.
  unfold check_timeframe. rewrite Hfetch. unfold dict_item. rewrite Hneed.
  cbn [bind].
  destruct (length df_full <? need)%nat; [reflexivity|].
  destruct (iloc df_full (-1)) as [last|] eqn:Hlast; [cbn [bind]|reflexivity].
  destruct (length (tail need df_full) <? 5)%nat; [reflexivity|].
  match goal with
  | |- (if ?c then _ else _) = _ => destruct c; [reflexivity|]
  end.
  rewrite Hpat. cbn [bind].
  destruct (find_nearest_levels df_full 20 500 3) as [[supports resistances]|]
    eqn:Hlv; [cbn [bind]|reflexivity].
  rewrite !(broke_level_false df_full last supports resistances symbol _
              Hlast Hlv).
  destruct (is_near_support_or_resistance _ _ _ _ && negb false);
    [reflexivity|].
  destruct (iloc df_full (-5)) as [c5|]; [cbn [bind]|reflexivity].
  destruct (iloc df_full (-10)) as [c10|]; [cbn [bind]|reflexivity].
  reflexivity.
Qed.

(** A timeframe has data when the feed returns a frame with the required
    number of bars. *)
Definition has_data (fetch_candles_fn : Fetcher) (symbol label : string) : bool :=
  match fetch_candles_fn symbol label (dict_get TF_CANDLE_COUNTS label 300) with
  | Some df_full =>
      (dict_get TF_CANDLE_COUNTS label 300 <=? length df_full)%nat
  | None => false
  end.

Lemma confirms_has_data (fetch_candles_fn : Fetcher)
    (symbol direction label : string) :
  confirms fetch_candles_fn symbol direction label = true ->
  has_data fetch_candles_fn symbol label = true.
Proof.
  unfold confirms, has_data, check_timeframe, dict_item, dict_get.
  destruct (fetch_candles_fn symbol label _) as [df_full|]; [|discriminate].
  destruct (lookup TF_CANDLE_COUNTS label) as [need|]; [cbn [bind]|discriminate].
  destruct (length df_full <? need)%nat eqn:E; [discriminate|].
  intros _. apply Nat.leb_le. apply Nat.ltb_ge in E. exact E.
Qed.

Lemma filter_length_le {A : Type} (p q : A -> bool) (l : list A) :
  (forall x, p x = true -> q x = true) ->
  (length (filter p l) <= length (filter q l))%nat.
Proof.
  intros Hpq. induction l as [|x l IH]; simpl; [lia|].
  destruct (p x) eqn:Ep.
  - rewrite (Hpq x Ep). simpl. lia.
  - destruct (q x); simpl; lia.
Qed.

(** A reversal is confirmed only when the feed serves at least four of the
    eight timeframes with the full number of bars each requires. *)
Theorem reversal_needs_four_feeds (fetch_candles_fn : Fetcher)
    (symbol direction : string) :
  detect_reversal_signal fetch_candles_fn symbol direction = Ok true ->
  (4 <= length (filter (has_data fetch_candles_fn symbol) TIMEFRAMES))%nat.
Proof.
  rewrite detect_reversal_signal_count. intros H. apply Ok_inj in H.
  apply Nat.leb_le in H. unfold confirming_count in H.
  pose proof (filter_length_le (confirms fetch_candles_fn symbol direction)
                (has_data fetch_candles_fn symbol) TIMEFRAMES
                (confirms_has_data fetch_candles_fn symbol direction)).
  lia.
Qed.

End ReversalFacts.

(** A calm H1 frame with one bump, 1400 bars back, ten pips above the
    close. *)
Definition calm_bar : Bar := mkBar 1 1.0005 0.9995 1.
Definition bump_bar : Bar := mkBar 1 1.001 0.9995 1.

Definition bump_frame : DataFrame :=
  repeat calm_bar 100 ++ [bump_bar] ++ repeat calm_bar 1399.

Definition feed_bump : reversal_signal.Fetcher :=
  fun _ label _ => if (label =? "H1")%string then Some bump_frame else None.

Lemma near_level_never_confirms_witness :
  reversal_signal.check_timeframe feed_bump "EURUSD" "BUY" "H1" <> Ok reversal_signal.Confirmed /\
  reversal_signal.check_timeframe feed_bump "EURUSD" "BUY" "H1" <> Ok reversal_signal.Rejected.
Proof.
  apply (near_level_never_confirms feed_bump "EURUSD" "BUY" "H1" bump_frame
           calm_bar [] [1.001]); vm_compute; reflexivity.
Defined.

Lemma pattern_verdict_ignores_direction_witness :
  reversal_signal.check_timeframe feed_four_confirm "EURUSD" "BUY" "H4"
  = reversal_signal.check_timeframe feed_four_confirm "EURUSD" "SELL" "H4".
Proof.
  apply (pattern_verdict_ignores_direction feed_four_confirm "EURUSD" "BUY"
           "SELL" "H4" (repeat rising_hammer 2000) 2000);
    vm_compute; reflexivity.
Defined.

Lemma reversal_needs_four_feeds_witness :
  (4 <= length (filter (has_data feed_four_confirm "EURUSD")
                       reversal_signal.TIMEFRAMES))%nat.
Proof.
  apply (reversal_needs_four_feeds feed_four_confirm "EURUSD" "BUY").
  vm_compute. reflexivity.
Defined.

(** * Further properties of the zone engine *)

Section ZoneFacts.

Import support_resistance supply_demand.

(** Zone [m] spans zone [z]. *)
Definition covers (m z : Zone) : Prop := fst m <= fst z /\ snd z <= snd m.

Lemma covers_refl (z : Zone) : covers z z.
Proof. split; apply Qle_refl. Qed.

Lemma covers_trans (a b c : Zone) : covers a b -> covers b c -> covers a c.
Proof. intros [H1 H2] [H3 H4]. split; eapply Qle_trans; eauto. Qed.

(** A candidate united with a zone: every zone kept so far is still
    spanned, and so is the candidate. *)
Lemma absorb_covers (merged : list Zone) (low high : Q) :
  forall merged', absorb merged low high = Some merged' ->
    (forall m, In m merged -> exists m', In m' merged' /\ covers m' m) /\
    (exists m', In m' merged' /\ covers m' (low, high)).
Proof.
  induction merged as [|[ex_low ex_high] rest IH]; intros merged' H;
    simpl in H; [discriminate|].
  destruct (overlaps low high ex_low ex_high).
  - inversion H; subst; clear H.
    destruct (py_min_spec low ex_low) as [M1 M2].
    destruct (py_max_spec high ex_high) as [X1 X2].
    split.
    + intros m [<-|Hm].
      * eexists. split; [now left|]. split; assumption.
      * exists m. split; [now right|apply covers_refl].
    + eexists. split; [now left|]. split; assumption.
  - destruct (absorb rest low high) as [r|] eqn:E; [|discriminate].
    inversion H; subst; clear H.
    destruct (IH r eq_refl) as [Hkeep Hnew]. split.
    + intros m [<-|Hm].
      * eexists. split; [now left|apply covers_refl].
      * destruct (Hkeep m Hm) as [m' [Hin Hc]].
        exists m'. split; [now right|exact Hc].
    + destruct Hnew as [m' [Hin Hc]]. exists m'. split; [now right|exact Hc].
Qed.

Lemma merge_step_covers (merged : list Zone) (z : Zone) :
  (forall m, In m merged ->
     exists m', In m' (merge_step merged z) /\ covers m' m) /\
  (nondegenerate z -> exists m', In m' (merge_step merged z) /\ covers m' z).
Proof.
  destruct z as [low high]. unfold merge_step, nondegenerate. simpl.
  destruct (Qeq_bool low high).
  - split; [|discriminate].
    intros m Hm. exists m. split; [exact Hm|apply covers_refl].
  - destruct (absorb merged low high) as [merged'|] eqn:E.
    + destruct (absorb_covers merged low high merged' E) as [Hkeep Hnew].
      split; [exact Hkeep|now intros _].
    + split.
      * intros m Hm. exists m. split; [|apply covers_refl].
        apply in_or_app. now left.
      * intros _. exists (low, high). split; [|apply covers_refl].
        apply in_or_app. right. now left.
Qed.

Lemma merge_fold_covers (zones : list Zone) :
  forall merged,
    (forall m, In m merged ->
       exists m', In m' (fold_left merge_step zones merged) /\ covers m' m) /\
    (forall z, In z zones -> nondegenerate z ->
       exists m', In m' (fold_left merge_step zones merged) /\ covers m' z).
Proof.
  induction zones as [|z0 zones IH]; intros merged; simpl.
  - split; [|intros z []].
    intros m Hm. exists m. split; [exact Hm|apply covers_refl].
  - destruct (IH (merge_step merged z0)) as [Hkeep Hnew].
    destruct (merge_step_covers merged z0) as [Skeep Snew].
    split.
    + intros m Hm. destruct (Skeep m Hm) as [m1 [Hin1 Hc1]].
      destruct (Hkeep m1 Hin1) as [m2 [Hin2 Hc2]].
      exists m2. split; [exact Hin2|]. now apply (covers_trans m2 m1 m).
    + intros z [<-|Hz] Hnd.
      * destruct (Snew Hnd) as [m1 [Hin1 Hc1]].
        destruct (Hkeep m1 Hin1) as [m2 [Hin2 Hc2]].
        exists m2. split; [exact Hin2|]. now apply (covers_trans m2 m1 z0).
      * now apply Hnew.
Qed.

(** Merging loses no price: with the cap at zero, which keeps every merged
    zone, each candidate interval that is not a single price lies inside a
    zone of the result. *)
Theorem merge_zones_covers_candidates (zones : list Zone) (z : Zone) :
  In z zones -> nondegenerate z ->
  exists m, In m (_merge_zones zones 0) /\ covers m z.
Proof.
  intros Hz Hnd. unfold _merge_zones, last_slice. simpl.
  destruct (merge_fold_covers zones []) as [_ H]. now apply H.
Qed.

Lemma in_skipn {A : Type} (k : nat) (l : list A) (x : A) :
  In x (skipn k l) -> In x l.
Proof.
  revert l. induction k as [|k IH]; intros [|y l]; simpl; auto.
Qed.

(** The bounds of a zone are bounds of candidates. *)
Definition bounds_from (zones : list Zone) (m : Zone) : Prop :=
  (exists z, In z zones /\ fst z = fst m) /\
  (exists z, In z zones /\ snd z = snd m).

Lemma absorb_bounds (all merged : list Zone) (low high : Q) :
  In (low, high) all ->
  Forall (bounds_from all) merged ->
  forall merged', absorb merged low high = Some merged' ->
                  Forall (bounds_from all) merged'.
Proof.
  intros Hz. induction merged as [|[ex_low ex_high] rest IH];
    intros Hm merged' H; simpl in H; [discriminate|].
  inversion Hm as [|? ? [Hlo Hhi] Hrest]; subst.
  destruct (overlaps low high ex_low ex_high).
  - inversion H; subst; clear H. constructor; [|exact Hrest].
    split; simpl.
    + unfold py_min. destruct (Qltb ex_low low); [exact Hlo|].
      now exists (low, high).
    + unfold py_max, Qgtb. destruct (Qltb high ex_high); [exact Hhi|].
      now exists (low, high).
  - destruct (absorb rest low high) as [r|] eqn:E; [|discriminate].
    inversion H; subst; clear H. constructor; [now split|]. now apply IH.
Qed.

Lemma merge_fold_bounds (all zones : list Zone) :
  (forall z, In z zones -> In z all) ->
  forall merged, Forall (bounds_from all) merged ->
                 Forall (bounds_from all) (fold_left merge_step zones merged).
Proof.
  induction zones as [|[low high] zones IH]; intros Hsub merged Hm; simpl;
    [exact Hm|].
  apply IH; [intros z Hz; apply Hsub; now right|].
  destruct (Qeq_bool low high); [exact Hm|].
  assert (Hin : In (low, high) all) by (apply Hsub; now left).
  destruct (absorb merged low high) as [m|] eqn:Ea.
  - now apply (absorb_bounds all merged low high Hin Hm).
  - apply Forall_app. split; [exact Hm|].
    constructor; [|constructor]. split; now exists (low, high).
Qed.

Lemma merge_zones_in_fold (zones : list Zone) (max_zones : Z) (m : Zone) :
  In m (_merge_zones zones max_zones) -> In m (fold_left merge_step zones []).
Proof.
  unfold _merge_zones, last_slice.
  destruct (0 <? max_zones)%Z; apply in_skipn.
Qed.

Lemma merge_zones_bounds_from (zones : list Zone) (max_zones : Z) (m : Zone) :
  In m (_merge_zones zones max_zones) -> bounds_from zones m.
Proof.
  intros Hm. apply merge_zones_in_fold in Hm.
  pose proof (merge_fold_bounds zones zones (fun z Hz => Hz) []
                (Forall_nil _)) as H.
  rewrite Forall_forall in H. now apply H.
Qed.

(** Merging invents no price: the low of each returned zone is the low of
    a candidate and its high is the high of a candidate; no returned zone is
    a single price; and a positive cap bounds the number of zones. *)
Theorem merge_zones_bounds (zones : list Zone) (max_zones : Z) :
  (forall m, In m (_merge_zones zones max_zones) ->
     bounds_from zones m /\ nondegenerate m) /\
  ((0 < max_zones)%Z ->
   (Z.of_nat (length (_merge_zones zones max_zones)) <= max_zones)%Z).
Proof.
  split.
  - intros m Hm. split; [now apply (merge_zones_bounds_from zones max_zones)|].
    apply merge_zones_in_fold in Hm.
    pose proof (merge_fold_nondegenerate zones [] (Forall_nil _)) as H.
    rewrite Forall_forall in H. now apply H.
  - intros Hk. now apply last_slice_length.
Qed.

(** ** [find_zones] *)

Lemma window_step_filters_off (df : DataFrame) (window : nat)
    (range_factor breakout_mult atr range_factor' breakout_mult' atr' : Q)
    (acc : list Zone * list Zone) (start : nat) :
  window_step df window range_factor breakout_mult atr acc start
  = window_step df window range_factor' breakout_mult' atr' acc start.
Proof.
  unfold window_step. destruct acc as [demand supply].
  destruct (iloc _ 0) as [fc|]; [cbn [bind]|reflexivity].
  destruct (iloc _ (-1)) as [lc|]; [cbn [bind]|reflexivity].
  reflexivity.
Qed.

Lemma window_loop_filters_off (df : DataFrame) (window : nat)
    (range_factor breakout_mult atr range_factor' breakout_mult' atr' : Q)
    (starts : list nat) :
  forall acc,
    window_loop df window range_factor breakout_mult atr acc starts
    = window_loop df window range_factor' breakout_mult' atr' acc starts.
Proof.
  induction starts as [|s starts IH]; intros acc; simpl; [reflexivity|].
  rewrite (window_step_filters_off df window range_factor breakout_mult atr
             range_factor' breakout_mult' atr').
  destruct (window_step _ _ _ _ _ _ _) as [acc'|]; [cbn [bind]|reflexivity].
  apply IH.
Qed.

(** With both filter switches off, as the module sets them, the ATR, the
    range factor and the breakout multiplier have no effect on the zones
    found. *)
Theorem find_zones_ignores_atr (df : DataFrame) (window : nat) (max_zones : Z)
    (range_factor breakout_mult atr range_factor' breakout_mult' atr' : Q) :
  find_zones df atr window range_factor breakout_mult max_zones
  = find_zones df atr' window range_factor' breakout_mult' max_zones.
Proof.
  unfold find_zones. destruct df as [|b0 rest]; [reflexivity|].
  now rewrite (window_loop_filters_off (b0 :: rest) window range_factor
                 breakout_mult atr range_factor' breakout_mult' atr').
Qed.

(** On a frame without bars [find_zones] raises [IndexError], at the read
    of the last ATR value; a frame that has a bar and no more bars than the
    window gives no zone on either side. *)
Theorem find_zones_short_frame (df : DataFrame) (atr : Q) (window : nat)
    (range_factor breakout_mult : Q) (max_zones : Z) :
  (df = [] ->
   find_zones df atr window range_factor breakout_mult max_zones
   = Raise IndexError) /\
  (df <> [] -> (length df <= window)%nat ->
   find_zones df atr window range_factor breakout_mult max_zones
   = Ok ([], [])).
Proof.
  split; [intros ->; reflexivity|].
  intros Hne H. unfold find_zones, range.
  destruct df as [|b0 rest]; [contradiction|].
  replace (length (b0 :: rest) - window - 0)%nat with 0%nat by lia.
  cbn [seq window_loop bind].
  assert (Hnil : _merge_zones [] max_zones = []).
  { unfold _merge_zones, last_slice. cbn [fold_left].
    destruct (0 <? max_zones)%Z; apply skipn_nil. }
  now rewrite Hnil.
Qed.

Lemma list_max_in (xs : list Q) :
  xs <> [] -> In (reversal_signal.list_max xs) xs.
Proof.
  destruct xs as [|x t]; [congruence|]. intros _. simpl.
  revert x. induction t as [|y t IH]; intros x; cbn [fold_left]; [now left|].
  destruct (IH (py_max x y)) as [H|H]; [|now right; right].
  rewrite <- H. unfold py_max, Qgtb. destruct (Qltb x y); [right|]; now left.
Qed.

(** The bounds of a zone are prices of bars of the frame. *)
Definition from_bars (df : DataFrame) (z : Zone) : Prop :=
  (exists b, In b df /\ low b = fst z) /\ (exists b, In b df /\ high b = snd z).

Lemma window_step_from_bars (df : DataFrame) (window : nat)
    (range_factor breakout_mult atr : Q) (acc acc' : list Zone * list Zone)
    (start : nat) :
  window_step df window range_factor breakout_mult atr acc start = Ok acc' ->
  Forall (from_bars df) (fst acc) -> Forall (from_bars df) (snd acc) ->
  Forall (from_bars df) (fst acc') /\ Forall (from_bars df) (snd acc').
Proof.
  unfold window_step. destruct acc as [demand supply]. simpl.
  set (w := slice df start (start + window)).
  intros H Hd Hs.
  destruct (iloc w 0) as [fc|] eqn:Efc; [cbn [bind] in H|discriminate].
  destruct (iloc w (-1)) as [lc|]; [cbn [bind] in H|discriminate].
  assert (Hne : w <> []).
  { intros E. rewrite E in Efc. discriminate. }
  assert (Hz : from_bars df (series_min (map low w), series_max (map high w))).
  { split; simpl.
    - assert (Hin : In (series_min (map low w)) (map low w)).
      { apply list_min_in. destruct w; [congruence|discriminate]. }
      apply in_map_iff in Hin. destruct Hin as [b [Hb Hin]].
      exists b. split; [now apply (slice_incl df start (start + window))|exact Hb].
    - assert (Hin : In (series_max (map high w)) (map high w)).
      { apply list_max_in. destruct w; [congruence|discriminate]. }
      apply in_map_iff in Hin. destruct Hin as [b [Hb Hin]].
      exists b. split; [now apply (slice_incl df start (start + window))|exact Hb]. }
  repeat match type of H with
  | (if ?c then _ else _) = _ => destruct c
  end; apply Ok_inj in H; inversion H; subst; simpl; split; auto;
    apply Forall_app; split; auto.
Qed.

Lemma window_loop_from_bars (df : DataFrame) (window : nat)
    (range_factor breakout_mult atr : Q) (starts : list nat) :
  forall acc acc',
    window_loop df window range_factor breakout_mult atr acc starts = Ok acc' ->
    Forall (from_bars df) (fst acc) -> Forall (from_bars df) (snd acc) ->
    Forall (from_bars df) (fst acc') /\ Forall (from_bars df) (snd acc').
Proof.
  induction starts as [|s starts IH]; intros acc acc' H Hd Hs; simpl in H.
  - apply Ok_inj in H. subst. now split.
  - destruct (window_step df window range_factor breakout_mult atr acc s)
      as [acc1|] eqn:E; [cbn [bind] in H|discriminate].
    destruct (window_step_from_bars _ _ _ _ _ _ _ _ E Hd Hs) as [Hd1 Hs1].
    now apply (IH acc1 acc').
Qed.

Lemma bounds_from_bars (df : DataFrame) (zones : list Zone) (m : Zone) :
  Forall (from_bars df) zones -> bounds_from zones m -> from_bars df m.
Proof.
  rewrite Forall_forall. intros H [[z1 [Hin1 E1]] [z2 [Hin2 E2]]].
  destruct (H z1 Hin1) as [[b1 [Hb1 Hl1]] _].
  destruct (H z2 Hin2) as [_ [b2 [Hb2 Hh2]]].
  split; [exists b1|exists b2]; split; auto; congruence.
Qed.

(** Every zone that [find_zones] returns, on either side, runs from the low
    of a bar of the frame to the high of a bar of the frame. *)
Theorem find_zones_from_bars (df : DataFrame) (atr : Q) (window : nat)
    (range_factor breakout_mult : Q) (max_zones : Z)
    (demand supply : list Zone) :
  find_zones df atr window range_factor breakout_mult max_zones
    = Ok (demand, supply) ->
  Forall (from_bars df) demand /\ Forall (from_bars df) supply.
Proof.
  intros H.
  assert (Hne : df <> []) by (intros ->; discriminate H).
  unfold find_zones in H. destruct df as [|b0 rest] eqn:Edf; [contradiction|].
  rewrite <- Edf in *. clear Edf Hne.
  destruct (window_loop _ _ _ _ _ _ _) as [[d s]|] eqn:E;
    [cbn [bind] in H|discriminate].
  apply Ok_inj in H. inversion H; subst; clear H.
  destruct (window_loop_from_bars _ _ _ _ _ _ _ _ E (Forall_nil _)
              (Forall_nil _)) as [Hd Hs].
  simpl in Hd, Hs.
  split; apply Forall_forall; intros m Hm.
  - apply (bounds_from_bars df d); [exact Hd|].
    now apply (merge_zones_bounds_from d max_zones).
  - apply (bounds_from_bars df s); [exact Hs|].
    now apply (merge_zones_bounds_from s max_zones).
Qed.

End ZoneFacts.

Lemma merge_zones_covers_candidates_witness :
  exists m, In m (supply_demand._merge_zones bridged_zones 0) /\
            covers m (0.5, 3.5).
Proof.
  apply merge_zones_covers_candidates.
  - right. right. left. reflexivity.
  - reflexivity.
Defined.

Lemma merge_zones_bounds_witness :
  (Z.of_nat (length (supply_demand._merge_zones bridged_zones 1)) <= 1)%Z.
Proof.
  apply (proj2 (merge_zones_bounds bridged_zones 1)). lia.
Defined.

Lemma find_zones_short_frame_witness :
  supply_demand.find_zones two_swing_frame 1 20 1.0 0.1 3 = Ok ([], []).
Proof.
  apply (proj2 (find_zones_short_frame two_swing_frame 1 20 1.0 0.1 3)).
  - discriminate.
  - simpl. lia.
Defined.

Lemma find_zones_from_bars_witness :
  Forall (from_bars rise_and_fall) [ (0, 42) ] /\
  Forall (from_bars rise_and_fall) [ (0, 24); (4, 42) ].
Proof.
  apply (find_zones_from_bars rise_and_fall 1 20 1.0 0.1 3).
  vm_compute. reflexivity.
Defined.

(** Two zones apart from each other. *)
Definition apart_zones : list supply_demand.Zone := [ (0, 1); (3, 4) ].

Lemma merge_zones_fixpoint_witness :
  supply_demand._merge_zones (supply_demand._merge_zones apart_zones 3) 3
  = supply_demand._merge_zones apart_zones 3.
Proof.
  apply merge_zones_fixpoint; [lia|].
  intros i j a b Hij Ha Hb.
  destruct i as [|[|i]], j as [|[|j]];
    try congruence;
    try (destruct i; discriminate); try (destruct j; discriminate);
    vm_compute in Ha, Hb; inversion Ha; inversion Hb; subst;
    [left|right]; vm_compute; reflexivity.
Defined.

(** * Further properties of the fallback scan *)

Section FallbackFacts.

Import support_resistance supply_demand.

Variable calculate_atr : DataFrame -> list Q.
Variable holds : pattern_detector.Detector -> DataFrame -> bool.
Variable feed : nat -> reversal_signal.Fetcher.
Variables (df_dict : FrameDict) (direction symbol : string) (curr_price : Q).

(** What stands behind a confirmed zone: the price touches a zone of the
    required side, and the chart check or a call of the reversal consensus
    confirms the direction. *)
Definition confirmed_touch (zone_tol : Q) (zones : list Zone) : Prop :=
  exists z, In z zones /\ in_tolerance curr_price zone_tol z = true /\
            (chart_confirms holds df_dict direction = true \/
             exists n, reversal_signal.detect_reversal_signal (feed n) symbol
                                                              direction
                       = Ok true).

Lemma scan_zones_confirmed (zone_tol : Q) (zones : list Zone) :
  forall calls calls',
    scan_zones holds feed df_dict direction symbol curr_price zone_tol zones
               calls = Ok (true, calls') ->
    confirmed_touch zone_tol zones.
Proof.
  induction zones as [|[low high] zones IH]; intros calls calls' H;
    cbn [scan_zones] in H; [discriminate|].
  assert (Hlift : confirmed_touch zone_tol zones ->
                  confirmed_touch zone_tol ((low, high) :: zones)).
  { intros [z [Hin Hrest]]. exists z. split; [now right|exact Hrest]. }
  destruct (Qleb (low - zone_tol) curr_price && Qleb curr_price (high + zone_tol))
    eqn:Etol; [|apply Hlift; now apply (IH calls calls')].
  destruct (chart_confirms holds df_dict direction) eqn:Ec.
  - exists (low, high). split; [now left|]. split; [exact Etol|now left].
  - destruct (reversal_signal.detect_reversal_signal (feed calls) symbol direction)
      as [r|] eqn:Er; [cbn [bind] in H|discriminate].
    destruct r.
    + exists (low, high). split; [now left|]. split; [exact Etol|].
      right. now exists calls.
    + apply Hlift. now apply (IH (S calls) calls').
Qed.

Lemma scan_timeframes_confirmed (zone_tol : Q)
    (finders : list (string * Finder)) :
  forall calls dz sz tf_used,
    scan_timeframes holds feed df_dict direction symbol curr_price zone_tol
                    finders calls = Ok (dz, sz, tf_used) ->
    match tf_used with
    | None => dz = [] /\ sz = []
    | Some tf =>
        exists fn f,
          In (tf, fn) finders /\ df_dict tf = Some f /\ bars f <> [] /\
          fn f = Ok (dz, sz) /\
          confirmed_touch zone_tol (required_side direction (dz, sz))
    end.
Proof.
  induction finders as [|[tf fn] finders IH]; intros calls dz sz tf_used H;
    cbn [scan_timeframes] in H.
  - apply Ok_inj in H. inversion H; subst. now split.
  - assert (Hlift : forall calls0,
              scan_timeframes holds feed df_dict direction symbol curr_price
                              zone_tol finders calls0 = Ok (dz, sz, tf_used) ->
              match tf_used with
              | None => dz = [] /\ sz = []
              | Some tf0 =>
                  exists fn0 f,
                    In (tf0, fn0) ((tf, fn) :: finders) /\
                    df_dict tf0 = Some f /\ bars f <> [] /\
                    fn0 f = Ok (dz, sz) /\
                    confirmed_touch zone_tol (required_side direction (dz, sz))
              end).
    { intros calls0 H0. specialize (IH calls0 dz sz tf_used H0).
      destruct tf_used as [tf0|]; [|exact IH].
      destruct IH as [fn0 [f [Hin Hrest]]].
      exists fn0, f. split; [now right|exact Hrest]. }
    destruct (df_dict tf) as [f|] eqn:Ef; [|now apply (Hlift calls)].
    destruct (reversal_signal.nonempty (bars f)) eqn:Ene;
      cbn [negb] in H; [|now apply (Hlift calls)].
    destruct (fn f) as [[dz0 sz0]|] eqn:Efn; [cbn [bind] in H|discriminate].
    destruct (scan_zones _ _ _ _ _ _ _ _ _) as [[confirmed calls']|] eqn:Es;
      [cbn [bind] in H|discriminate].
    destruct confirmed; [|now apply (Hlift calls')].
    apply Ok_inj in H. inversion H; subst; clear H.
    exists fn, f. split; [now left|]. split; [exact Ef|].
    split; [intros E; rewrite E in Ene; discriminate|].
    split; [exact Efn|].
    apply scan_zones_confirmed in Es. exact Es.
Qed.

(** [find_zones_fallback] names a timeframe only for a zone that was
    confirmed: one of M30, H1, H2, H4 and D1, with a frame that has bars,
    whose zone sets are the ones returned, and on which the price touches a
    zone of the required side while the chart check or the reversal
    consensus confirms.  With no timeframe named, both lists are empty. *)
Theorem fallback_result_confirmed (dz sz : list Zone) (tf_used : option string) :
  find_zones_fallback calculate_atr holds feed df_dict direction curr_price
                      symbol = Ok (dz, sz, tf_used) ->
  match tf_used with
  | None => dz = [] /\ sz = []
  | Some tf =>
      In tf ["M30"; "H1"; "H2"; "H4"; "D1"]%string /\
      exists fn f zone_tol,
        In (tf, fn) (tf_finders calculate_atr) /\
        df_dict tf = Some f /\ bars f <> [] /\
        fn f = Ok (dz, sz) /\
        zone_tolerance df_dict symbol = Ok zone_tol /\
        confirmed_touch zone_tol (required_side direction (dz, sz))
  end.
Proof.
  unfold find_zones_fallback. intros H.
  destruct (zone_tolerance df_dict symbol) as [zone_tol|] eqn:Et;
    [cbn [bind] in H|discriminate].
  apply scan_timeframes_confirmed in H.
  destruct tf_used as [tf|]; [|exact H].
  destruct H as [fn [f [Hin [Hf [Hne [Hfn Hc]]]]]].
  split.
  - apply (in_map fst) in Hin. exact Hin.
  - exists fn, f, zone_tol. repeat split; auto.
Qed.

(** Without an M15 ATR column named [atr_14], the padding is the static
    one: 0.01 for a JPY symbol, else 1.0 for an XAU symbol, else 0.0003,
    whatever the case of the letters.  The column [ATR_14] that the
    indicator provider writes is not such a column. *)
Theorem zone_tolerance_static :
  (forall f name values,
      df_dict "M15"%string = Some f ->
      atr_column f = Some (name, values) -> name <> "atr_14"%string) ->
  zone_tolerance df_dict symbol
  = Ok (if pystr.contains "JPY" (pystr.upper symbol) then 0.01
        else if pystr.contains "XAU" (pystr.upper symbol) then 1.0
        else 0.0003).
Proof.
  intros Hno. unfold zone_tolerance, get_zone_tolerance, JPY_ABS_PAD.
  assert (Hstatic :
    Ok (if pystr.contains "JPY" (pystr.upper symbol) then 0.01
        else if pystr.contains "XAU" (pystr.upper symbol) then 1.0
             else if pystr.contains "JPY" (pystr.upper symbol) then 0.03
                  else 0.0003)
    = Ok (if pystr.contains "JPY" (pystr.upper symbol) then 0.01
          else if pystr.contains "XAU" (pystr.upper symbol) then 1.0
               else 0.0003)).
  { destruct (pystr.contains "JPY" _); reflexivity. }
  destruct (df_dict "M15"%string) as [[m15 [[name values]|]]|] eqn:E;
    try exact Hstatic.
  destruct (name =? "atr_14")%string eqn:En; [|exact Hstatic].
  apply String.eqb_eq in En. exfalso.
  now apply (Hno (mkFrame m15 (Some (name, values))) name values).
Qed.

End FallbackFacts.

(** The rise and fall on H1 with the price inside a supply zone and a
    double top on the last M15 bars. *)
Definition holds_double_top (f : pattern_detector.Detector)
    (_ : DataFrame) : bool :=
  match f with
  | pattern_detector.detect_double_top => true
  | _ => false
  end.

Definition m15_and_h1 : supply_demand.FrameDict :=
  fun tf =>
    if (tf =? "H1")%string
    then Some (supply_demand.mkFrame rise_and_fall None)
    else if (tf =? "M15")%string
    then Some (supply_demand.mkFrame
                 two_swing_frame
                 (Some ("ATR_14"%string, [1; 1; 1; 1; 1; 1])))
    else None.

Lemma fallback_result_confirmed_witness :
  In "H1"%string ["M30"; "H1"; "H2"; "H4"; "D1"]%string /\
  exists fn f zone_tol,
    In ("H1"%string, fn) (supply_demand.tf_finders unit_atr) /\
    m15_and_h1 "H1"%string = Some f /\ supply_demand.bars f <> [] /\
    fn f = Ok ([ (0, 42) ], [ (0, 24); (4, 42) ]) /\
    supply_demand.zone_tolerance m15_and_h1 "EURUSD" = Ok zone_tol /\
    confirmed_touch holds_double_top silent_feed m15_and_h1 "SELL" "EURUSD" 10
      zone_tol
      (required_side "SELL" ([ (0, 42) ], [ (0, 24); (4, 42) ])).
Proof.
  apply (fallback_result_confirmed unit_atr holds_double_top silent_feed
           m15_and_h1 "SELL" "EURUSD" 10 [ (0, 42) ] [ (0, 24); (4, 42) ]
           (Some "H1"%string)).
  vm_compute. reflexivity.
Defined.

Lemma zone_tolerance_static_witness :
  supply_demand.zone_tolerance m15_and_h1 "gbpjpy" = Ok 0.01.
Proof.
  apply (zone_tolerance_static m15_and_h1 "gbpjpy").
  intros f name values Hf Hcol. vm_compute in Hf.
  inversion Hf; subst. inversion Hcol; subst. discriminate.
Defined.

(** * momentum_strategy.py *)

Module momentum_strategy.

(** [df] is [None] for a missing frame. *)
Definition momentum_signal (df : option DataFrame) : result (option string) :=
  match df with
  | None => Ok None
  | Some [] => Ok None
  | Some df =>
      recent <- iloc df (-1) ;;
      previous <- iloc df (-2) ;;
      let recent_close := close recent in
      let previous_close := close previous in
      if Qgtb recent_close previous_close then Ok (Some "BUY"%string)
      else if Qltb recent_close previous_close then Ok (Some "SELL"%string)
      else Ok None
  end.

End momentum_strategy.

(** * main.py: the trendline test, the score in binary64 and the choice of
      the best trade *)

Module main_helpers.

(** [series.rolling(window=w).max().iloc[i]] and the same for [min], at a
    position [i] with [w - 1] positions before it. *)
Definition rolling_max_at (xs : list Q) (w i : nat) : Q :=
  reversal_signal.list_max (support_resistance.slice xs (i + 1 - w) (i + 1)).

Definition rolling_min_at (xs : list Q) (w i : nat) : Q :=
  reversal_signal.list_min (support_resistance.slice xs (i + 1 - w) (i + 1)).

Definition is_respecting_trendline (df : DataFrame) (direction : string)
  : result bool :=
  if (length df <? 10)%nat then Ok false else
  let lows := rolling_min_at (map low df) 5 in
  let highs := rolling_max_at (map high df) 5 in
  if (direction =? "BUY")%string then
    last <- iloc df (-1) ;;
    Ok (Qgtb (close last) (lows (length df - 5)%nat))
  else if (direction =? "SELL")%string then
    last <- iloc df (-1) ;;
    Ok (Qltb (close last) (highs (length df - 5)%nat))
  else Ok false.

(** The confidence threshold of the configuration
    ([CONFIDENCE_THRESHOLD = REVERSAL_REQUIRED_CONFIDENCE = 0.7]). *)
#[warnings="-inexact-float"]
Definition CONFIDENCE_THRESHOLD : float := 0.7%float.

(** Lines 236-271 of [get_trade_decision] on binary64 floats, each test
    given by its outcome, in the order the code makes them. *)
#[warnings="-inexact-float"]
Definition accumulate_float
    (trend momentum rsi bollinger near_zone trendline candle chart : bool)
  : float :=
  let score := 0%float in
  let score := if trend then (score + 0.2)%float else score in
  let score := if momentum then (score + 0.2)%float else score in
  let score := if rsi then (score + 0.1)%float else score in
  let score := if bollinger then (score + 0.1)%float else score in
  let score := if near_zone then (score + 0.15)%float else score in
  let score := if trendline then (score + 0.1)%float else score in
  let score := if candle then (score + 0.15)%float else score in
  let score := if chart then (score + 0.1)%float else score in
  score.

(** [score < CONFIDENCE_THRESHOLD]: the decision is skipped. *)
Definition below_threshold (score : float) : bool :=
  PrimFloat.ltb score CONFIDENCE_THRESHOLD.

(** The fields of a decision that the choice among symbols reads. *)
Record Decision : Type := mkDecision {
  symbol : string;
  direction : string;
  confidence : Q
}.

(** The body of the symbol loop of [run_bot] on the outcome for one
    symbol: [None] for a symbol that gave no decision (unresolved, already
    in a trade, rejected, or failed with an exception that the loop
    caught). *)
Definition keep_best (best_trade : option Decision) (decision : option Decision)
  : option Decision :=
  match decision with
  | None => best_trade
  | Some d =>
      match best_trade with
      | None => Some d
      | Some b => if Qgtb (confidence d) (confidence b) then Some d else Some b
      end
  end.

Definition best_trade (decisions : list (option Decision)) : option Decision :=
  fold_left keep_best decisions None.

End main_helpers.

(** * Properties of the signals and of the choice of a trade *)

Section SignalFacts.

Import momentum_strategy main_helpers.

(** The momentum signal raises on a frame of exactly one bar, which has no
    previous close, and on no other input; a missing or empty frame gives
    no signal. *)
Theorem momentum_signal_raises_on_one_bar (df : option DataFrame) :
  (momentum_signal None = Ok None /\ momentum_signal (Some []) = Ok None) /\
  ((exists e, momentum_signal df = Raise e) <-> exists b, df = Some [b]).
Proof.
  split; [split; reflexivity|]. split.
  - intros [e H]. destruct df as [[|b0 [|b1 rest]]|]; try discriminate.
    + now exists b0.
    + exfalso. unfold momentum_signal in H.
      destruct (iloc_in_range (b0 :: b1 :: rest) (-1)) as [x Hx];
        [simpl length; lia|].
      destruct (iloc_in_range (b0 :: b1 :: rest) (-2)) as [y Hy];
        [simpl length; lia|].
      rewrite Hx, Hy in H. cbn [bind] in H.
      destruct (Qgtb _ _); [discriminate|].
      destruct (Qltb _ _); discriminate.
  - intros [b ->]. exists IndexError. reflexivity.
Qed.

(** The five bars whose lows and highs the trendline test reads: those at
    the positions [n-9 .. n-5]. *)
Definition trendline_window (df : DataFrame) : DataFrame :=
  support_resistance.slice df (length df - 9) (length df - 4).

Lemma slice_map {A B : Type} (f : A -> B) (l : list A) (a b : nat) :
  support_resistance.slice (map f l) a b
  = map f (support_resistance.slice l a b).
Proof.
  unfold support_resistance.slice. now rewrite skipn_map, firstn_map.
Qed.

(** The trendline test raises nothing, is false on fewer than ten bars and
    for a direction other than BUY and SELL; on ten bars or more it passes
    for BUY or for SELL as soon as one of the five bars it reads has a low
    below its high. *)
Theorem trendline_test_passes_one_side (df : DataFrame) :
  (forall direction, exists b, is_respecting_trendline df direction = Ok b) /\
  ((length df < 10)%nat ->
   forall direction, is_respecting_trendline df direction = Ok false) /\
  (forall direction,
     direction <> "BUY"%string -> direction <> "SELL"%string ->
     is_respecting_trendline df direction = Ok false) /\
  ((10 <= length df)%nat ->
   (exists b, In b (trendline_window df) /\ low b < high b) ->
   is_respecting_trendline df "BUY" = Ok true \/
   is_respecting_trendline df "SELL" = Ok true).
Proof.
  repeat split.
  - intros direction. unfold is_respecting_trendline.
    destruct (length df <? 10)%nat eqn:E; [now exists false|].
    apply Nat.ltb_ge in E.
    destruct (iloc_in_range df (-1)) as [last ->]; [lia|].
    destruct (direction =? "BUY")%string; [eexists; reflexivity|].
    destruct (direction =? "SELL")%string; eexists; reflexivity.
  - intros H direction. unfold is_respecting_trendline.
    now replace (length df <? 10)%nat with true
      by (symmetry; now apply Nat.ltb_lt).
  - intros direction Hb Hs. unfold is_respecting_trendline.
    destruct (length df <? 10)%nat; [reflexivity|].
    apply String.eqb_neq in Hb, Hs. now rewrite Hb, Hs.
  - intros Hlen [b [Hin Hb]]. unfold is_respecting_trendline.
    replace (length df <? 10)%nat with false
      by (symmetry; now apply Nat.ltb_ge).
    destruct (iloc_in_range df (-1)) as [last ->]; [lia|].
    cbn [String.eqb Ascii.eqb Bool.eqb bind]. cbv zeta.
    unfold rolling_min_at, rolling_max_at.
    replace (length df - 5 + 1 - 5)%nat with (length df - 9)%nat by lia.
    replace (length df - 5 + 1)%nat with (length df - 4)%nat by lia.
    rewrite !slice_map. fold (trendline_window df).
    assert (Hmin : reversal_signal.list_min (map low (trendline_window df))
                   <= low b) by (apply list_min_le; now apply in_map).
    assert (Hmax : high b
                   <= reversal_signal.list_max (map high (trendline_window df)))
      by (apply list_max_ge; now apply in_map).
    destruct (Qgtb (close last) _) eqn:Eg; [now left|right].
    unfold Qgtb in Eg. apply Qltb_ge in Eg.
    f_equal. apply Qltb_lt. lra.
Qed.

End SignalFacts.

(** * The threshold gate and the choice among symbols *)

Section ThresholdFacts.

Import main_helpers.

(** A test over both booleans. *)
Definition both (P : bool -> bool) : bool := P true && P false.

Lemma both_spec (P : bool -> bool) : both P = true -> forall b, P b = true.
Proof.
  unfold both. intros H b. apply andb_true_iff in H.
  destruct b; tauto.
Qed.

(** The number of tests that agree. *)
Definition agreeing (flags : list bool) : nat :=
  length (filter (fun f => f) flags).

(** The threshold gate, checked on each of the 256 outcomes of the eight
    tests. *)
Definition threshold_table : bool :=
  both (fun t => both (fun m => both (fun r => both (fun b =>
  both (fun nz => both (fun tl => both (fun c => both (fun ch =>
    let n := agreeing [t; m; r; b; nz; tl; c; ch] in
    let skipped := below_threshold (accumulate_float t m r b nz tl c ch) in
    (if (n <? 4)%nat then skipped else true) &&
    (if (n =? 4)%nat then Bool.eqb skipped (negb (t && m && nz && c))
     else true) &&
    (if (6 <=? n)%nat then negb skipped else true))))))))).

Lemma threshold_table_holds : threshold_table = true.
Proof. vm_compute. reflexivity. Qed.

(** The threshold gate in binary64 arithmetic: a score made of fewer than
    four agreeing tests is below the threshold 0.7 and the symbol is
    skipped; with exactly four, the only combination that passes is trend,
    momentum, level proximity and candle pattern (the 0.2 and 0.15
    weights); with six or more the score always passes. *)
Theorem threshold_needs_four
    (trend momentum rsi bollinger near_zone trendline candle chart : bool) :
  let n := agreeing [trend; momentum; rsi; bollinger; near_zone; trendline;
                     candle; chart] in
  let skipped :=
    below_threshold (accumulate_float trend momentum rsi bollinger near_zone
                                      trendline candle chart) in
  ((n < 4)%nat -> skipped = true) /\
  (n = 4%nat ->
   (skipped = false <->
    trend = true /\ momentum = true /\ near_zone = true /\ candle = true)) /\
  ((6 <= n)%nat -> skipped = false).
Proof.
  cbv zeta.
  pose proof threshold_table_holds as H. unfold threshold_table in H.
  apply both_spec with (b := trend) in H.
  apply both_spec with (b := momentum) in H.
  apply both_spec with (b := rsi) in H.
  apply both_spec with (b := bollinger) in H.
  apply both_spec with (b := near_zone) in H.
  apply both_spec with (b := trendline) in H.
  apply both_spec with (b := candle) in H.
  apply both_spec with (b := chart) in H.
  cbv zeta in H.
  apply andb_true_iff in H. destruct H as [H H6].
  apply andb_true_iff in H. destruct H as [H3 H4].
  set (n := agreeing _) in *.
  set (skipped := below_threshold _) in *.
  split; [|split].
  - intros Hn. apply Nat.ltb_lt in Hn. now rewrite Hn in H3.
  - intros Hn. rewrite Hn in H4. cbn [Nat.eqb] in H4.
    apply Bool.eqb_prop in H4. rewrite H4. rewrite negb_false_iff.
    rewrite !andb_true_iff. tauto.
  - intros Hn. apply Nat.leb_le in Hn. rewrite Hn in H6.
    now apply negb_true_iff in H6.
Qed.

(** The score order, checked on each pair of outcomes of the eight
    tests. *)
Definition monotone_table : bool :=
  both (fun t => both (fun m => both (fun r => both (fun b =>
  both (fun nz => both (fun tl => both (fun c => both (fun ch =>
  both (fun t' => both (fun m' => both (fun r' => both (fun b' =>
  both (fun nz' => both (fun tl' => both (fun c' => both (fun ch' =>
    implb (implb t t' && implb m m' && implb r r' && implb b b' &&
           implb nz nz' && implb tl tl' && implb c c' && implb ch ch')
          (PrimFloat.leb (accumulate_float t m r b nz tl c ch)
                         (accumulate_float t' m' r' b' nz' tl' c' ch'))
  )))))))))))))))).

Lemma monotone_table_holds : monotone_table = true.
Proof. vm_compute. reflexivity. Qed.

Lemma implb_of (a b : bool) : (a = true -> b = true) -> implb a b = true.
Proof. destruct a, b; simpl; auto. Qed.

(** Scoring is monotonic, also with the rounding of binary64 sums: one
    more test in agreement never lowers the score. *)
Theorem score_monotone (t m r b nz tl c ch t' m' r' b' nz' tl' c' ch' : bool) :
  (t = true -> t' = true) -> (m = true -> m' = true) ->
  (r = true -> r' = true) -> (b = true -> b' = true) ->
  (nz = true -> nz' = true) -> (tl = true -> tl' = true) ->
  (c = true -> c' = true) -> (ch = true -> ch' = true) ->
  PrimFloat.leb (accumulate_float t m r b nz tl c ch)
                (accumulate_float t' m' r' b' nz' tl' c' ch') = true.
Proof.
  intros Ht Hm Hr Hb Hnz Htl Hc Hch.
  pose proof monotone_table_holds as H. unfold monotone_table in H.
  apply both_spec with (b := t) in H. apply both_spec with (b := m) in H.
  apply both_spec with (b := r) in H. apply both_spec with (b := b) in H.
  apply both_spec with (b := nz) in H. apply both_spec with (b := tl) in H.
  apply both_spec with (b := c) in H. apply both_spec with (b := ch) in H.
  apply both_spec with (b := t') in H. apply both_spec with (b := m') in H.
  apply both_spec with (b := r') in H. apply both_spec with (b := b') in H.
  apply both_spec with (b := nz') in H. apply both_spec with (b := tl') in H.
  apply both_spec with (b := c') in H. apply both_spec with (b := ch') in H.
  rewrite (implb_of _ _ Ht), (implb_of _ _ Hm), (implb_of _ _ Hr),
    (implb_of _ _ Hb), (implb_of _ _ Hnz), (implb_of _ _ Htl),
    (implb_of _ _ Hc), (implb_of _ _ Hch) in H.
  exact H.
Qed.

(** ** The best trade *)

Lemma keep_best_fold (decisions : list (option Decision)) :
  forall best,
    match fold_left keep_best decisions best with
    | None => best = None /\ Forall (fun d => d = None) decisions
    | Some w =>
        (best = Some w \/ In (Some w) decisions) /\
        (forall b, best = Some b -> confidence b <= confidence w) /\
        (forall d, In (Some d) decisions -> confidence d <= confidence w)
    end.
Proof.
  induction decisions as [|d decisions IH]; intros best; simpl.
  - destruct best as [b|].
    + split; [now left|]. split; [|intros d []].
      intros b' E. inversion E. apply Qle_refl.
    + now split.
  - specialize (IH (keep_best best d)).
    destruct (fold_left keep_best decisions (keep_best best d)) as [w|].
    + destruct IH as [Hin [Hbest Hall]].
      assert (Hstep_best : forall b, best = Some b ->
                exists k, keep_best best d = Some k /\
                          confidence b <= confidence k).
      { intros b ->. destruct d as [x|]; simpl.
        - destruct (Qgtb (confidence x) (confidence b)) eqn:E.
          + apply Qgtb_lt in E. exists x. split; [reflexivity|lra].
          + exists b. split; [reflexivity|apply Qle_refl].
        - exists b. split; [reflexivity|apply Qle_refl]. }
      assert (Hstep_d : forall x, d = Some x ->
                exists k, keep_best best d = Some k /\
                          confidence x <= confidence k).
      { intros x ->. destruct best as [b|]; simpl.
        - destruct (Qgtb (confidence x) (confidence b)) eqn:E.
          + exists x. split; [reflexivity|apply Qle_refl].
          + unfold Qgtb in E. apply Qltb_ge in E. now exists b.
        - exists x. split; [reflexivity|apply Qle_refl]. }
      split; [|split].
      * destruct Hin as [Hin|Hin]; [|right; now right].
        destruct d as [x|], best as [b|]; simpl in Hin.
        -- destruct (Qgtb (confidence x) (confidence b));
             inversion Hin; subst; [right; now left|now left].
        -- inversion Hin; subst. right. now left.
        -- now left.
        -- discriminate.
      * intros b Hb. destruct (Hstep_best b Hb) as [k [Hk Hle]].
        eapply Qle_trans; [exact Hle|]. now apply Hbest.
      * intros x [Hx|Hx]; [|now apply Hall].
        destruct (Hstep_d x Hx) as [k [Hk Hle]].
        eapply Qle_trans; [exact Hle|]. now apply Hbest.
    + destruct IH as [Hk Hall].
      destruct d as [x|], best as [b|]; simpl in Hk; try discriminate.
      * destruct (Qgtb _ _); discriminate.
      * split; [reflexivity|]. now constructor.
Qed.

(** The symbol loop keeps a decision of the highest confidence: the best
    trade is one of the decisions made, no decision has a higher
    confidence, and there is no best trade exactly when no symbol gave a
    decision. *)
Theorem best_trade_highest_confidence (decisions : list (option Decision)) :
  match best_trade decisions with
  | None => Forall (fun d => d = None) decisions
  | Some w =>
      In (Some w) decisions /\
      forall d, In (Some d) decisions -> confidence d <= confidence w
  end.
Proof.
  unfold best_trade. pose proof (keep_best_fold decisions None) as H.
  destruct (fold_left keep_best decisions None) as [w|].
  - destruct H as [[Hin|Hin] [_ Hall]]; [discriminate|]. now split.
  - now destruct H.
Qed.

(** On equal confidence the symbol met first stays: a later decision
    replaces the best trade only with a strictly higher confidence. *)
Theorem best_trade_first_on_tie (before after : list (option Decision))
    (d : Decision) :
  (forall x, In (Some x) before -> confidence x < confidence d) ->
  (forall x, In (Some x) after -> confidence x <= confidence d) ->
  best_trade (before ++ Some d :: after) = Some d.
Proof.
  intros Hb Ha. unfold best_trade. rewrite fold_left_app. cbn [fold_left].
  assert (Hstep : keep_best (fold_left keep_best before None) (Some d) = Some d).
  { pose proof (keep_best_fold before None) as H.
    destruct (fold_left keep_best before None) as [w|]; [|reflexivity].
    destruct H as [[Hin|Hin] _]; [discriminate|].
    simpl. specialize (Hb w Hin).
    now replace (Qgtb (confidence d) (confidence w)) with true
      by (symmetry; now apply Qgtb_lt). }
  rewrite Hstep. clear Hstep Hb.
  induction after as [|x after IH]; [reflexivity|]. cbn [fold_left].
  assert (Hx : keep_best (Some d) x = Some d).
  { destruct x as [x|]; [|reflexivity]. simpl.
    assert (Hle : confidence x <= confidence d) by (apply Ha; now left).
    destruct (Qgtb (confidence x) (confidence d)) eqn:E; [|reflexivity].
    apply Qgtb_lt in E. lra. }
  rewrite Hx. apply IH. intros y Hy. apply Ha. now right.
Qed.

End ThresholdFacts.

Lemma threshold_needs_four_witness :
  main_helpers.below_threshold
    (main_helpers.accumulate_float true true true false false false false false)
  = true.
Proof.
  apply (proj1 (threshold_needs_four true true true false false false false
                  false)).
  vm_compute. lia.
Defined.

Lemma score_monotone_witness :
  PrimFloat.leb
    (main_helpers.accumulate_float true false true false false true false false)
    (main_helpers.accumulate_float true true true false false true false true)
  = true.
Proof.
  apply score_monotone; intros H; first [exact H | discriminate | reflexivity].
Defined.

Lemma best_trade_first_on_tie_witness :
  main_helpers.best_trade
    ([ Some (main_helpers.mkDecision "EURUSD" "BUY" 70); None ]
       ++ Some (main_helpers.mkDecision "GBPUSD" "SELL" 85)
       :: [ Some (main_helpers.mkDecision "XAUUSD" "BUY" 85) ])
  = Some (main_helpers.mkDecision "GBPUSD" "SELL" 85).
Proof.
  apply best_trade_first_on_tie.
  - intros x [H|[H|[]]]; inversion H; subst. vm_compute. reflexivity.
  - intros x [H|[]]; inversion H; subst. vm_compute. discriminate.
Defined.

(** * The pattern conflict check of the orchestrator *)

Module main_conflict.

Import pattern_detector.

(** Lines 228-231 of [get_trade_decision]: [true] when the decision is
    rejected for a pattern that conflicts with the direction. *)
Definition pattern_conflict (pat : option PatternMatch) (direction : string)
  : bool :=
  match pat with
  | Some p =>
      (opt_eqb (pattern_detector.direction p) (Some "BUY"%string) ||
       opt_eqb (pattern_detector.direction p) (Some "SELL"%string)) &&
      negb (opt_eqb (pattern_detector.direction p) (Some direction))
  | None => false
  end.

End main_conflict.

Section ConflictFacts.

Import pattern_detector main_conflict.

Lemma detect_pattern_loop_ext (holds holds' : Detector -> DataFrame -> bool)
    (df df' : DataFrame) (expected : option string) :
  (forall f, holds f df = holds' f df') ->
  forall ps fallback,
    detect_pattern_loop holds ps df expected fallback
    = detect_pattern_loop holds' ps df' expected fallback.
Proof.
  intros Hext. induction ps as [|[[f0 d0] n0] ps IH]; intros fallback;
    cbn [detect_pattern_loop]; [reflexivity|].
  rewrite <- Hext. destruct (holds f0 df); [|apply IH].
  destruct (truthy expected && opt_eqb d0 expected); [reflexivity|apply IH].
Qed.

(** The detectors as a table of outcomes. *)
Definition outcome_table (db dt hs ihs at_ dtr st w fl pn ch rc : bool)
    (f : Detector) (_ : DataFrame) : bool :=
  match f with
  | detect_double_bottom => db
  | detect_double_top => dt
  | detect_head_and_shoulders => hs
  | detect_inverse_head_and_shoulders => ihs
  | detect_ascending_triangle => at_
  | detect_descending_triangle => dtr
  | detect_symmetric_triangle => st
  | detect_wedge => w
  | detect_flag => fl
  | detect_pennant => pn
  | detect_cup_and_handle => ch
  | detect_rectangle => rc
  end.

(** The conflict check on each of the 4096 outcomes of the twelve
    detectors. *)
Definition conflict_table : bool :=
  both (fun db => both (fun dt => both (fun hs => both (fun ihs =>
  both (fun at_ => both (fun dtr => both (fun st => both (fun w =>
  both (fun fl => both (fun pn => both (fun ch => both (fun rc =>
    let holds := outcome_table db dt hs ihs at_ dtr st w fl pn ch rc in
    let sell := dt || hs || dtr in
    let buy := db || ihs || at_ || ch in
    Bool.eqb (pattern_conflict (detect_pattern holds [] (Some "BUY"%string))
                               "BUY")
             (sell && negb buy) &&
    Bool.eqb (pattern_conflict (detect_pattern holds [] (Some "SELL"%string))
                               "SELL")
             (negb sell &&
              (db || ihs || at_ || (ch && negb (st || w || fl || pn))))
  )))))))))))).

Lemma conflict_table_holds : conflict_table = true.
Proof. vm_compute. reflexivity. Qed.

Variable holds : Detector -> DataFrame -> bool.

(** The conflict check against a BUY rejects exactly when a SELL pattern
    (double top, head and shoulders, descending triangle) holds and no BUY
    pattern does.  Against a SELL it is not the mirror image: a cup and
    handle, the one BUY pattern listed after the neutral ones, is let
    through whenever a symmetric triangle, wedge, flag or pennant holds. *)
Theorem conflict_check_cases (df : DataFrame) :
  let h := fun f => holds f df in
  let sell := h detect_double_top || h detect_head_and_shoulders
              || h detect_descending_triangle in
  let early_buy := h detect_double_bottom
                   || h detect_inverse_head_and_shoulders
                   || h detect_ascending_triangle in
  let neutral_first := h detect_symmetric_triangle || h detect_wedge
                       || h detect_flag || h detect_pennant in
  pattern_conflict (detect_pattern holds df (Some "BUY"%string)) "BUY"
  = sell && negb (early_buy || h detect_cup_and_handle) /\
  pattern_conflict (detect_pattern holds df (Some "SELL"%string)) "SELL"
  = negb sell && (early_buy || (h detect_cup_and_handle && negb neutral_first)).
Proof.
  cbv zeta.
  set (T := outcome_table
              (holds detect_double_bottom df) (holds detect_double_top df)
              (holds detect_head_and_shoulders df)
              (holds detect_inverse_head_and_shoulders df)
              (holds detect_ascending_triangle df)
              (holds detect_descending_triangle df)
              (holds detect_symmetric_triangle df) (holds detect_wedge df)
              (holds detect_flag df) (holds detect_pennant df)
              (holds detect_cup_and_handle df) (holds detect_rectangle df)).
  assert (Hext : forall f, holds f df = T f []) by (intros f; now destruct f).
  unfold detect_pattern.
  rewrite !(detect_pattern_loop_ext holds T df [] _ Hext).
  pose proof conflict_table_holds as H. unfold conflict_table in H.
  apply both_spec with (b := holds detect_double_bottom df) in H.
  apply both_spec with (b := holds detect_double_top df) in H.
  apply both_spec with (b := holds detect_head_and_shoulders df) in H.
  apply both_spec with (b := holds detect_inverse_head_and_shoulders df) in H.
  apply both_spec with (b := holds detect_ascending_triangle df) in H.
  apply both_spec with (b := holds detect_descending_triangle df) in H.
  apply both_spec with (b := holds detect_symmetric_triangle df) in H.
  apply both_spec with (b := holds detect_wedge df) in H.
  apply both_spec with (b := holds detect_flag df) in H.
  apply both_spec with (b := holds detect_pennant df) in H.
  apply both_spec with (b := holds detect_cup_and_handle df) in H.
  apply both_spec with (b := holds detect_rectangle df) in H.
  cbv zeta in H. fold T in H. unfold detect_pattern in H.
  apply andb_true_iff in H. destruct H as [Hb Hs].
  apply Bool.eqb_prop in Hb, Hs. rewrite Hb, Hs.
  split; reflexivity.
Qed.

End ConflictFacts.

Lemma conflict_check_cases_witness :
  main_conflict.pattern_conflict
    (pattern_detector.detect_pattern
       (outcome_table false false false false false false false true false
                      false true false) [] (Some "SELL"%string)) "SELL"
  = false.
Proof.
  exact (proj2 (conflict_check_cases
                  (outcome_table false false false false false false false
                                 true false false true false) [])).
Defined.

(** Inputs for the signal properties. *)
Definition gravestone_bar : Bar := mkBar 1 2 1 1.

Lemma doji_variants_imply_witness :
  candle_patterns.is_doji [gravestone_bar] = Ok true /\
  candle_patterns.is_shooting_star [gravestone_bar] = Ok true.
Proof.
  apply (proj1 (doji_variants_imply [gravestone_bar])).
  vm_compute. reflexivity.
Defined.

(** Ten bars around a close of 5. *)
Definition ten_bars : DataFrame := repeat (mkBar 5 6 4 5) 10.

Lemma trendline_test_passes_one_side_witness :
  main_helpers.is_respecting_trendline ten_bars "BUY" = Ok true \/
  main_helpers.is_respecting_trendline ten_bars "SELL" = Ok true.
Proof.
  apply (proj2 (proj2 (proj2 (trendline_test_passes_one_side ten_bars)))).
  - simpl. lia.
  - exists (mkBar 5 6 4 5). split; [left; reflexivity|reflexivity].
Defined.
